(** * create-filament: configuration resolution and generation pipeline

    A shallow embedding of [src/index.ts]: the prompt answers and the
    resolved [ProjectConfig], the project-name check of the name prompt, the
    nine generation steps with their file-system and subprocess effects,
    and the fail-fast loop of [main]. *)

From Stdlib Require Import String Ascii List Bool Arith Lia.
From stdpp Require Import gmap strings list fin_maps.
Import ListNotations.

(** ** Data model (index.ts, lines 14-29) *)

Inductive Template := minimal | api | full.
Inductive Ci := github | gitlab | none.
Inductive PackageManager := npm | pnpm | yarn | bun.

Record Features := mkFeatures {
  docker : bool;
  dockerCompose : bool;
  ci : Ci;
  openapi : bool;
  auth : bool;
  observability : bool
}.

(** [name] and [gitCommit] are [string] and [boolean] for the type checker,
    but they are filled from the prompt answers as they are; an answer that
    was never collected is [undefined], written [None] here. *)
Record ProjectConfig := mkConfig {
  name : option string;
  template : Template;
  features : Features;
  packageManager : PackageManager;
  git : bool;
  gitCommit : option bool;
  install : bool
}.

(** The answers object returned by the prompt front-end: a key is present
    only when its question was asked. *)
Record Answers := mkAnswers {
  a_name : option string;
  a_template : Template;
  a_additionalFeatures : option (list string);
  a_packageManager : PackageManager;
  a_git : bool;
  a_gitCommit : option bool
}.

#[global] Instance Template_eq_dec : EqDecision Template.
Proof. solve_decision. Defined.
#[global] Instance Ci_eq_dec : EqDecision Ci.
Proof. solve_decision. Defined.
#[global] Instance PackageManager_eq_dec : EqDecision PackageManager.
Proof. solve_decision. Defined.
#[global] Instance Features_eq_dec : EqDecision Features.
Proof. solve_decision. Defined.

(** ** JavaScript helpers *)

(** Truthiness of a possibly undefined string: [undefined] and the empty
    string are falsy. *)
Definition truthy_string (v : option string) : bool :=
  match v with
  | Some s => negb (String.eqb s "")
  | None => false
  end.

(** Truthiness of a possibly undefined boolean. *)
Definition truthy_bool (v : option bool) : bool :=
  match v with
  | Some b => b
  | None => false
  end.

(** [a || b] on possibly undefined strings. *)
Definition js_or (a b : option string) : option string :=
  if truthy_string a then a else b.

(** [Array.prototype.includes] on an array of strings. *)
Definition includes (arr : list string) (tok : string) : bool :=
  existsb (String.eqb tok) arr.

(** ** The name prompt's [validate] callback (lines 53-59) *)

(** The character class [[a-z0-9-_]]: after the range [0-9] the hyphen is a
    literal, and so is the underscore. *)
Definition in_class (c : ascii) : bool :=
  let n := nat_of_ascii c in
  (Nat.leb 97 n && Nat.leb n 122) || (Nat.leb 48 n && Nat.leb n 57)
  || Nat.eqb n 45 || Nat.eqb n 95.

(** [/^[a-z0-9-_]+$/.test(value)]: one or more characters of the class and
    nothing else. *)
Definition name_pattern_test (value : string) : bool :=
  match list_ascii_of_string value with
  | [] => false
  | cs => forallb in_class cs
  end.

(** [validate] returns [true] or an error message. *)
Inductive Validation := Accepted | Rejected (message : string).

Definition validate (value : string) : Validation :=
  if String.eqb value "" then Rejected "Project name is required"
  else if negb (name_pattern_test value) then
    Rejected "Project name can only contain lowercase letters, numbers, hyphens, and underscores"
  else Accepted.

Definition is_accepted (v : Validation) : bool :=
  match v with Accepted => true | Rejected _ => false end.

(** ** Feature parsing (lines 122-152) *)

Definition set_docker (v : bool) (f : Features) : Features :=
  mkFeatures v (dockerCompose f) (ci f) (openapi f) (auth f) (observability f).
Definition set_dockerCompose (v : bool) (f : Features) : Features :=
  mkFeatures (docker f) v (ci f) (openapi f) (auth f) (observability f).
Definition set_ci (v : Ci) (f : Features) : Features :=
  mkFeatures (docker f) (dockerCompose f) v (openapi f) (auth f) (observability f).
Definition set_openapi (v : bool) (f : Features) : Features :=
  mkFeatures (docker f) (dockerCompose f) (ci f) v (auth f) (observability f).
Definition set_auth (v : bool) (f : Features) : Features :=
  mkFeatures (docker f) (dockerCompose f) (ci f) (openapi f) v (observability f).
Definition set_observability (v : bool) (f : Features) : Features :=
  mkFeatures (docker f) (dockerCompose f) (ci f) (openapi f) (auth f) v.

(** The object literal of line 123. *)
Definition initial_features : Features :=
  mkFeatures false false none false false false.

(** The three conditional blocks, as successive assignments to the one
    [features] object. *)
Definition tier_block (answers : Answers) (f : Features) : Features :=
  if bool_decide (a_template answers = api) || bool_decide (a_template answers = full)
  then
    let f := set_docker true f in
    let f := set_dockerCompose true f in
    let f := set_ci github f in
    let f := set_openapi true f in
    set_auth true f
  else f.

Definition full_block (answers : Answers) (f : Features) : Features :=
  if bool_decide (a_template answers = full) then set_observability true f else f.

Definition override_block (answers : Answers) (f : Features) : Features :=
  if bool_decide (a_template answers = minimal) then
    match a_additionalFeatures answers with
    | Some sel =>
        let f := set_docker (includes sel "docker") f in
        let f := set_dockerCompose (includes sel "dockerCompose") f in
        let f := set_ci (if includes sel "ci-github" then github else none) f in
        let f := set_openapi (includes sel "openapi") f in
        let f := set_auth (includes sel "auth") f in
        set_observability (includes sel "observability") f
    | None => f
    end
  else f.

Definition parse_features (answers : Answers) : Features :=
  override_block answers (full_block answers (tier_block answers initial_features)).

(** The returned object (lines 154-162). *)
Definition resolve (projectName : option string) (answers : Answers) : ProjectConfig :=
  {| name := js_or projectName (a_name answers);
     template := a_template answers;
     features := parse_features answers;
     packageManager := a_packageManager answers;
     git := a_git answers;
     gitCommit := a_gitCommit answers;
     install := true |}.

(** ** The [features] object in the heap

    [promptForConfig] builds the object with the literal of line 123 and
    then assigns to its fields in place. *)

Definition alloc (v : Features) (h : gmap nat Features) : nat * gmap nat Features :=
  let l := fresh (dom h) in (l, <[l := v]> h).

Definition assign (l : nat) (block : Features → Features) (h : gmap nat Features)
  : gmap nat Features :=
  alter block l h.

Definition parse_features_in_place (answers : Answers) (h : gmap nat Features)
  : nat * gmap nat Features :=
  let (l, h) := alloc initial_features h in
  let h := assign l (tier_block answers) h in
  let h := assign l (full_block answers) h in
  let h := assign l (override_block answers) h in
  (l, h).

(** ** The prompt front-end (lines 44-120)

    The [prompts] library is an external collaborator.  It puts the
    questions in order, skips a question whose [type] callback returns
    [null], submits the [initial] value of a text question on an empty
    entry, keeps asking a text question until [validate] returns [true],
    and runs [onCancel] (here [process.exit(0)]) when the user gives up,
    at whichever question that is.  A [User] holds what the person at the
    terminal would do at each question, were it put. *)

Inductive PromptType := text | select | multiselect | confirm.

(** [type: (prev) => prev === 'minimal' ? 'multiselect' : null] *)
Definition additionalFeatures_type (prev : Template) : option PromptType :=
  if bool_decide (prev = minimal) then Some multiselect else None.

(** [type: (prev) => prev ? 'confirm' : null] *)
Definition gitCommit_type (prev : bool) : option PromptType :=
  if prev then Some confirm else None.

(** The questions after the name, in the order of lines 63-111. *)
Inductive Question :=
| template_question | additionalFeatures_question | packageManager_question
| git_question | gitCommit_question.

#[global] Instance Question_eq_dec : EqDecision Question.
Proof. solve_decision. Defined.

Record User := mkUserWith {
  typed_names : list string;          (* successive entries at the name prompt;
                                         after the last one the user gives up *)
  chosen_template : Template;
  selected_features : list string;
  chosen_packageManager : PackageManager;
  confirms_git : bool;
  confirms_gitCommit : bool;
  cancels_at : option Question        (* the later question the user gives up at *)
}.

(** A user who gives up at none of the later questions. *)
Definition mkUser (names : list string) (t : Template) (sel : list string)
    (pm : PackageManager) (g gc : bool) : User :=
  mkUserWith names t sel pm g gc None.

(** [initial: 'my-api'] (line 52): an empty entry submits the initial
    value, and it is that value [validate] sees. *)
Definition submitted (entry : string) : string :=
  if String.eqb entry "" then "my-api" else entry.

(** The name question is pushed only when [!projectName]; its answer is the
    first submitted value that [validate] accepts.  [None]: none was
    accepted and the user gave up. *)
Definition ask_name (projectName : option string) (u : User)
  : option (option string) :=
  if negb (truthy_string projectName) then
    match find (fun v => is_accepted (validate v)) (submitted <$> typed_names u) with
    | Some v => Some (Some v)
    | None => None
    end
  else Some None.

Definition asked {A} (ty : option PromptType) (answer : A) : option A :=
  match ty with Some _ => Some answer | None => None end.

(** The user gives up at a question only if it is put. *)
Definition gives_up_at (u : User) (q : Question) (ty : option PromptType) : bool :=
  match ty with
  | Some _ => bool_decide (cancels_at u = Some q)
  | None => false
  end.

Definition gives_up (u : User) : bool :=
  gives_up_at u template_question (Some select)
  || gives_up_at u additionalFeatures_question (additionalFeatures_type (chosen_template u))
  || gives_up_at u packageManager_question (Some select)
  || gives_up_at u git_question (Some confirm)
  || gives_up_at u gitCommit_question (gitCommit_type (confirms_git u)).

(** [None]: [onCancel] ran (lines 115-120). *)
Definition prompts (projectName : option string) (u : User) : option Answers :=
  match ask_name projectName u with
  | Some nm =>
      if gives_up u then None
      else
        Some {| a_name := nm;
                a_template := chosen_template u;
                a_additionalFeatures :=
                  asked (additionalFeatures_type (chosen_template u)) (selected_features u);
                a_packageManager := chosen_packageManager u;
                a_git := confirms_git u;
                a_gitCommit := asked (gitCommit_type (confirms_git u)) (confirms_gitCommit u) |}
  | None => None
  end.

(** ** Text helpers *)

Definition nl : string := String (ascii_of_nat 10) EmptyString.
Definition dq : string := String (ascii_of_nat 34) EmptyString.
Definition bs : string := String (ascii_of_nat 92) EmptyString.

(** A template literal written line by line: every line ends in a newline. *)
Definition unlines (ls : list string) : string :=
  foldr (fun l acc => l +:+ nl +:+ acc) EmptyString ls.

(** A template literal written line by line, no newline after the last. *)
Definition concat_lines (ls : list string) : string :=
  String.concat nl ls.

(** [s.includes(needle)] on strings. *)
Fixpoint contains (needle s : string) : bool :=
  String.prefix needle s ||
  match s with
  | EmptyString => false
  | String _ rest => contains needle rest
  end.

(** A possibly undefined name spliced into a template literal. *)
Definition show_name (n : option string) : string := default "undefined" n.

Definition pm_name (pm : PackageManager) : string :=
  match pm with npm => "npm" | pnpm => "pnpm" | yarn => "yarn" | bun => "bun" end.

(** ** Generated texts of the Docker and CI steps *)

(** The [dockerfile] literal (lines 512-555). *)
Definition dockerfile : string :=
  unlines
    [ "# Build stage";
      "FROM node:20-alpine AS builder";
      "";
      "WORKDIR /app";
      "";
      "# Copy package files";
      "COPY package*.json ./";
      "";
      "# Install dependencies";
      "RUN npm ci";
      "";
      "# Copy source";
      "COPY . .";
      "";
      "# Build";
      "RUN npm run build";
      "";
      "# Runtime stage";
      "FROM node:20-alpine";
      "";
      "WORKDIR /app";
      "";
      "# Copy package files";
      "COPY package*.json ./";
      "";
      "# Install production dependencies only";
      "RUN npm ci --production";
      "";
      "# Copy built files";
      "COPY --from=builder /app/dist ./dist";
      "";
      "# Create non-root user";
      "RUN addgroup -g 1001 -S nodejs && " +:+ bs;
      "    adduser -S nodejs -u 1001";
      "";
      "USER nodejs";
      "";
      "EXPOSE 3000";
      "";
      "HEALTHCHECK --interval=30s --timeout=3s --start-period=5s --retries=3 " +:+ bs;
      "  CMD node -e " +:+ dq +:+ "require('http').get('http://localhost:3000/health', (r) => {process.exit(r.statusCode === 200 ? 0 : 1)})" +:+ dq;
      "";
      "CMD [" +:+ dq +:+ "node" +:+ dq +:+ ", " +:+ dq +:+ "dist/index.js" +:+ dq +:+ "]" ].

(** The [dockerignore] literal (lines 559-570). *)
Definition dockerignore : string :=
  unlines
    [ "node_modules";
      "dist";
      "*.log";
      ".env";
      ".git";
      ".github";
      ".vscode";
      ".idea";
      "*.md";
      "tests";
      "coverage" ].

(** The [ciWorkflow] literal (lines 634-672). *)
Definition ciWorkflow : string :=
  unlines
    [ "name: CI";
      "";
      "on:";
      "  push:";
      "    branches: [ main, develop ]";
      "  pull_request:";
      "    branches: [ main, develop ]";
      "";
      "jobs:";
      "  test:";
      "    runs-on: ubuntu-latest";
      "    ";
      "    steps:";
      "    - uses: actions/checkout@v4";
      "    ";
      "    - name: Setup Node.js";
      "      uses: actions/setup-node@v4";
      "      with:";
      "        node-version: '20'";
      "        cache: 'npm'";
      "    ";
      "    - name: Install dependencies";
      "      run: npm ci";
      "    ";
      "    - name: Run linter";
      "      run: npm run lint";
      "    ";
      "    - name: Type check";
      "      run: npm run type-check";
      "    ";
      "    - name: Run tests";
      "      run: npm test";
      "    ";
      "    - name: Check dependencies";
      "      run: npm run depcheck";
      "    ";
      "    - name: Build";
      "      run: npm run build" ].

(** The [dockerJob] literal (lines 676-687), with [config.name] spliced in. *)
Definition dockerJob_text (config : ProjectConfig) : string :=
  unlines
    [ "";
      "  docker:";
      "    runs-on: ubuntu-latest";
      "    needs: test";
      "    if: github.ref == 'refs/heads/main'";
      "    ";
      "    steps:";
      "    - uses: actions/checkout@v4";
      "    ";
      "    - name: Build Docker image";
      "      run: docker build -t " +:+ show_name (name config) +:+ ":latest ." ].

(** ** JavaScript objects written out with [JSON.stringify] *)

#[local] Unset Elimination Schemes.
Inductive JValue :=
| JStr (s : string)
| JArr (items : list JValue)
| JObj (props : list (string * JValue))
| JUndefined.
#[local] Set Elimination Schemes.

(** [o[k]] *)
Definition js_get (k : string) (o : JValue) : JValue :=
  match o with
  | JObj props =>
      match find (fun kv => String.eqb (fst kv) k) props with
      | Some kv => snd kv
      | None => JUndefined
      end
  | _ => JUndefined
  end.

(** [o[k] = v]: an existing key keeps its place, a new one goes last. *)
Fixpoint set_prop (k : string) (v : JValue) (props : list (string * JValue))
  : list (string * JValue) :=
  match props with
  | [] => [(k, v)]
  | (k', v') :: rest =>
      if String.eqb k' k then (k, v) :: rest else (k', v') :: set_prop k v rest
  end.

Definition js_set (k : string) (v : JValue) (o : JValue) : JValue :=
  match o with
  | JObj props => JObj (set_prop k v props)
  | _ => o
  end.

(** An in-place change of the object or array held under [k]. *)
Definition js_alter (k : string) (f : JValue -> JValue) (o : JValue) : JValue :=
  js_set k (f (js_get k o)) o.

(** [arr.push(v)] *)
Definition js_push (v : JValue) (arr : JValue) : JValue :=
  match arr with
  | JArr items => JArr (items ++ [v])
  | _ => arr
  end.

(** [Object.keys(o)] *)
Definition js_keys (o : JValue) : list string :=
  match o with
  | JObj props => map fst props
  | _ => []
  end.

(** The [composeServices] object (lines 576-599). *)
Definition composeServices (config : ProjectConfig) : JValue :=
  let services :=
    JObj [ ("app",
            JObj [ ("build", JStr ".");
                   ("ports", JArr [JStr "3000:3000"]);
                   ("environment", JArr [JStr "NODE_ENV=production"; JStr "LOG_LEVEL=info"]);
                   ("depends_on", JArr []);
                   ("restart", JStr "unless-stopped") ]) ] in
  if auth (features config) then
    let services :=
      js_alter "app" (js_alter "environment" (js_push (JStr "REDIS_URL=redis://redis:6379")))
        services in
    let services :=
      js_alter "app" (js_alter "depends_on" (js_push (JStr "redis"))) services in
    js_set "redis"
      (JObj [ ("image", JStr "redis:7-alpine");
              ("ports", JArr [JStr "6379:6379"]);
              ("volumes", JArr [JStr "redis-data:/data"]);
              ("restart", JStr "unless-stopped") ])
      services
  else services.

(** The [dockerCompose] object (lines 601-605). *)
Definition dockerCompose_object (config : ProjectConfig) : JValue :=
  JObj [ ("version", JStr "3.8");
         ("services", composeServices config);
         ("volumes",
          if auth (features config) then JObj [("redis-data", JObj [])] else JUndefined) ].

(** ** The world of a run

    Paths are relative to the project directory and written as their
    segments; [[]] is the project directory itself.  The file-system model
    holds what the generator itself put there.  A path spliced into a shell
    command is taken to reach the command as one word. *)

Inductive Content :=
| Text (s : string)
| Json (v : JValue).            (* [JSON.stringify(v, null, 2)] *)

Inductive Node := Dir | File (c : Content).

Inductive Effect :=
| Mkdir (p : list string)                                (* [mkdirSync(p, { recursive: true })] *)
| RmRf (p : list string)                                 (* [rm -rf] reaching the one path [p] *)
| Cp (tree : list (list string * Node)) (dst : list string)   (* [cpSync(src, dst, { recursive: true })] *)
| WriteFile (p : list string) (c : Content)              (* [writeFileSync(p, c)] *)
| ChmodX (p : list string)                               (* [execSync(`chmod +x ${p}`)] *)
| Run (cmd : string).                                    (* [execSync(cmd, ...)], any other command *)

Inductive Line :=
| SpinnerStart (s : string)
| SpinnerSucceed (s : string)
| SpinnerFail (s : string)
| ConsoleLog (s : string)
| ConsoleError (s : string)
| ConsoleErrorObject.           (* [console.error(error)] *)

Inductive StepName :=
| CreateProjectStructure | CopyTemplateFiles | GeneratePackageJson
| GenerateConfigFiles | GenerateDockerFiles | GenerateCIFiles
| GenerateREADME | InstallDependencies | InitializeGit.

Record World := mkWorld {
  fs : gmap (list string) Node;
  trace : list Effect;          (* the I/O calls that went through, oldest first *)
  console : list Line;
  calls : list StepName         (* bookkeeping: the step functions entered, oldest first *)
}.

(** [mkdir -p]: every missing directory on the way is created.  Where a
    regular file is at the path or on the way to it the call raises;
    whether a call raises is the environment's to say ([throws] below),
    and the properties that need it suppose it of the environment. *)
Definition prefixes (p : list string) : list (list string) :=
  map (fun n => take n p) (seq 0 (S (length p))).

Definition mkdir_p (p : list string) (m : gmap (list string) Node)
  : gmap (list string) Node :=
  foldr (fun q acc => match acc !! q with
                      | None => <[q := Dir]> acc
                      | Some _ => acc
                      end) m (prefixes p).

Definition rm_rf (p : list string) (m : gmap (list string) Node)
  : gmap (list string) Node :=
  filter (fun kv => ¬ (p `prefix_of` kv.1)) m.

Definition cp_tree (tree : list (list string * Node)) (dst : list string)
    (m : gmap (list string) Node) : gmap (list string) Node :=
  foldr (fun e acc => <[dst ++ e.1 := e.2]> acc) (mkdir_p dst m) tree.

(** [git init] makes the repository directory, unless it is there. *)
Definition git_init (m : gmap (list string) Node) : gmap (list string) Node :=
  match m !! [".git"] with
  | None => <[ [".git"] := Dir ]> m
  | Some _ => m
  end.

(** The file system is the project as the generator's own calls build it,
    with the repository directory [git init] makes.  What [git] and the
    package manager keep for themselves below their own directories is
    not followed; a [chmod] changes no entry. *)
Definition apply_effect (e : Effect) (m : gmap (list string) Node)
  : gmap (list string) Node :=
  match e with
  | Mkdir p => mkdir_p p m
  | RmRf p => rm_rf p m
  | Cp tree dst => cp_tree tree dst m
  | WriteFile p c => <[p := File c]> m
  | ChmodX _ => m
  | Run cmd => if String.eqb cmd "git init" then git_init m else m
  end.

(** How a computation ends: with a value, with an exception on its way
    up, or in [process.exit(code)]. *)
Inductive Res (A : Type) :=
| Val (a : A)
| Throw
| Exit (code : nat).
Arguments Val {A} a.
Arguments Throw {A}.
Arguments Exit {A} code.

Definition IO (A : Type) : Type := World -> Res A * World.

Definition ret {A} (a : A) : IO A := fun w => (Val a, w).

Definition bind {A B} (m : IO A) (k : A -> IO B) : IO B :=
  fun w =>
    match m w with
    | (Val a, w') => k a w'
    | (Throw, w') => (Throw, w')
    | (Exit c, w') => (Exit c, w')
    end.

Definition throw {A} : IO A := fun w => (Throw, w).

Definition exit {A} (code : nat) : IO A := fun w => (Exit code, w).

(** [try { body } catch { handler }] *)
Definition try_catch {A} (body handler : IO A) : IO A :=
  fun w =>
    match body w with
    | (Throw, w') => handler w'
    | r => r
    end.

#[global] Instance IO_ret : MRet IO := @ret.
#[global] Instance IO_bind : MBind IO := fun A B k m => bind m k.

Definition say (l : Line) : IO unit :=
  fun w => (Val tt, mkWorld (fs w) (trace w) (console w ++ [l]) (calls w)).

Definition enter (s : StepName) : IO unit :=
  fun w => (Val tt, mkWorld (fs w) (trace w) (console w) (calls w ++ [s])).

(** A path spliced into a command line unquoted (lines 203 and 216).  The
    shell takes the word as it is written when it has only letters,
    digits, the signs [/ . _ - + , : @ % =] and bytes beyond ASCII.  A
    blank splits it, and a dollar sign, a quote, a backslash, a pattern or
    a control character is read by the shell: the command is then handed
    something else than the path. *)
Definition literal_characters : list ascii :=
  list_ascii_of_string
    "abcdefghijklmnopqrstuvwxyzABCDEFGHIJKLMNOPQRSTUVWXYZ0123456789/._-+,:@%=".

Definition taken_literally (s : string) : bool :=
  forallb (fun c => bool_decide (c ∈ literal_characters) || Nat.leb 128 (nat_of_ascii c))
          (list_ascii_of_string s).

(** [resolve(base, sub)] for an absolute [base] and a plain name [sub]. *)
Definition inside (base sub : string) : string := base +:+ "/" +:+ sub.

Definition exists_sync (p : list string) : IO bool :=
  fun w => (Val (bool_decide (is_Some (fs w !! p))), w).

Definition when (b : bool) (m : IO unit) : IO unit :=
  if b then m else ret tt.

(** ** The generation steps and [main] *)

Section Pipeline.

(** What the run cannot decide by itself: whether an I/O call raises
    (given the calls that went through before it), where a name leads
    from the working directory ([resolve(process.cwd(), name)]), and what
    the installed package holds under [templates/<tier>].  The texts of
    the files no property below looks into ([package.json], the tool
    configurations, the hooks, the two guides) are taken as given, by
    path. *)
Variable throws : list Effect -> Effect -> bool.
Variable absolute : string -> string.
Variable templates : Template -> option (string -> option (list (list string * Node))).
Variable boilerplate : list string -> ProjectConfig -> Content.

Definition perform (e : Effect) : IO unit :=
  fun w =>
    if throws (trace w) e then (Throw, w)
    else (Val tt, mkWorld (apply_effect e (fs w)) (trace w ++ [e]) (console w) (calls w)).

Definition write_boilerplate (p : list string) (config : ProjectConfig) : IO unit :=
  perform (WriteFile p (boilerplate p config)).

(** lines 165-187 *)
Definition createProjectStructure (config : ProjectConfig) : IO bool :=
  enter CreateProjectStructure ;;
  say (SpinnerStart "Creating project structure...") ;;
  try_catch
    (perform (Mkdir []) ;;
     perform (Mkdir ["src"]) ;;
     perform (Mkdir ["src"; "meta"]) ;;
     perform (Mkdir ["src"; "middleware"]) ;;
     perform (Mkdir ["src"; "routes"]) ;;
     perform (Mkdir ["src"; "handlers"]) ;;
     perform (Mkdir ["src"; "config"]) ;;
     perform (Mkdir ["tests"; "integration"]) ;;
     perform (Mkdir ["tests"; "unit"]) ;;
     say (SpinnerSucceed "Created project structure") ;;
     mret true)
    (say (SpinnerFail "Failed to create project structure") ;;
     say ConsoleErrorObject ;;
     mret false).

(** [projectPath] (line 1046), the text the steps are handed. *)
Definition projectPath (config : ProjectConfig) : string :=
  absolute (show_name (name config)).

(** [execSync(`rm -rf ${path}`)] (lines 203 and 216): the path goes into
    the command line unquoted.  Taken literally it reaches [rm], which
    removes the entry.  Otherwise [rm] is not handed the path: with a
    blank in it, for one, it is handed the pieces, and the entry stays. *)
Definition rm_rf_unquoted (path : string) (p : list string) : IO unit :=
  if taken_literally path then perform (RmRf p)
  else perform (Run ("rm -rf " +:+ path)).

(** One of the two copies of [copyTemplateFiles]: the project's [sub]
    directory is removed, if the command gets to it, and the template's,
    when it exists, is copied over what is there. *)
Definition copy_subtree (base : string)
    (dir : string -> option (list (list string * Node))) (sub : string) : IO unit :=
  match dir sub with
  | Some tree =>
      there ← exists_sync [sub];
      when there (rm_rf_unquoted (inside base sub) [sub]) ;;
      perform (Cp tree [sub])
  | None => mret tt
  end.

(** lines 189-230 *)
Definition copyTemplateFiles (config : ProjectConfig) : IO bool :=
  enter CopyTemplateFiles ;;
  say (SpinnerStart "Copying template files...") ;;
  try_catch
    (match templates (template config) with
     | Some dir =>
         copy_subtree (projectPath config) dir "src" ;;
         copy_subtree (projectPath config) dir "tests"
     | None => mret tt
     end ;;
     say (SpinnerSucceed "Copied template files") ;;
     mret true)
    (say (SpinnerFail "Failed to copy template files") ;;
     say ConsoleErrorObject ;;
     mret false).

(** lines 232-323 *)
Definition generatePackageJson (config : ProjectConfig) : IO bool :=
  enter GeneratePackageJson ;;
  say (SpinnerStart "Generating package.json...") ;;
  try_catch
    (write_boilerplate ["package.json"] config ;;
     say (SpinnerSucceed "Generated package.json") ;;
     mret true)
    (say (SpinnerFail "Failed to generate package.json") ;;
     say ConsoleErrorObject ;;
     mret false).

(** lines 325-501 *)
Definition generateConfigFiles (config : ProjectConfig) : IO bool :=
  enter GenerateConfigFiles ;;
  say (SpinnerStart "Generating configuration files...") ;;
  try_catch
    (write_boilerplate ["tsconfig.json"] config ;;
     write_boilerplate ["eslint.config.js"] config ;;
     write_boilerplate [".prettierrc"] config ;;
     write_boilerplate [".gitignore"] config ;;
     write_boilerplate [".env.example"] config ;;
     perform (Mkdir [".husky"]) ;;
     write_boilerplate [".husky"; "pre-commit"] config ;;
     write_boilerplate [".husky"; "commit-msg"] config ;;
     try_catch
       (perform (ChmodX [".husky"; "pre-commit"]) ;;
        perform (ChmodX [".husky"; "commit-msg"]))
       (mret tt) ;;
     write_boilerplate [".lintstagedrc"] config ;;
     write_boilerplate ["commitlint.config.js"] config ;;
     say (SpinnerSucceed "Generated configuration files") ;;
     mret true)
    (say (SpinnerFail "Failed to generate configuration files") ;;
     say ConsoleErrorObject ;;
     mret false).

(** lines 503-620 *)
Definition generateDockerFiles (config : ProjectConfig) : IO bool :=
  enter GenerateDockerFiles ;;
  if negb (docker (features config)) && negb (dockerCompose (features config))
  then mret true
  else
    say (SpinnerStart "Generating Docker files...") ;;
    try_catch
      (when (docker (features config))
         (perform (WriteFile ["Dockerfile"] (Text dockerfile)) ;;
          perform (WriteFile [".dockerignore"] (Text dockerignore))) ;;
       when (dockerCompose (features config))
         (perform (WriteFile ["docker-compose.yml"] (Json (dockerCompose_object config)))) ;;
       say (SpinnerSucceed "Generated Docker files") ;;
       mret true)
      (say (SpinnerFail "Failed to generate Docker files") ;;
       say ConsoleErrorObject ;;
       mret false).

(** lines 674-688 *)
Definition dockerJob (config : ProjectConfig) : string :=
  if docker (features config) then dockerJob_text config else "".

(** lines 622-703 *)
Definition generateCIFiles (config : ProjectConfig) : IO bool :=
  enter GenerateCIFiles ;;
  if bool_decide (ci (features config) = none)
  then mret true
  else
    say (SpinnerStart "Generating CI/CD files...") ;;
    try_catch
      (when (bool_decide (ci (features config) = github))
         (perform (Mkdir [".github"; "workflows"]) ;;
          perform (WriteFile [".github"; "workflows"; "ci.yml"]
                     (Text (ciWorkflow +:+ dockerJob config)))) ;;
       say (SpinnerSucceed "Generated CI/CD files") ;;
       mret true)
      (say (SpinnerFail "Failed to generate CI/CD files") ;;
       say ConsoleErrorObject ;;
       mret false).

(** lines 705-943 *)
Definition generateREADME (config : ProjectConfig) : IO bool :=
  enter GenerateREADME ;;
  say (SpinnerStart "Generating documentation...") ;;
  try_catch
    (write_boilerplate ["README.md"] config ;;
     write_boilerplate ["ARCHITECTURE.md"] config ;;
     say (SpinnerSucceed "Generated documentation") ;;
     mret true)
    (say (SpinnerFail "Failed to generate documentation") ;;
     say ConsoleErrorObject ;;
     mret false).

(** The [commands] table of lines 953-958. *)
Definition install_command (pm : PackageManager) : string :=
  match pm with
  | npm => "npm install"
  | pnpm => "pnpm install"
  | yarn => "yarn"
  | bun => "bun install"
  end.

(** The two [console.error] lines of the install step's handler. *)
Definition manual_install_hint (config : ProjectConfig) : list Line :=
  [ ConsoleError (nl +:+ "You can install dependencies manually by running:");
    ConsoleError ("  cd " +:+ show_name (name config) +:+ " && "
                  +:+ pm_name (packageManager config) +:+ " install" +:+ nl) ].

(** lines 945-973 *)
Definition installDependencies (config : ProjectConfig) : IO bool :=
  enter InstallDependencies ;;
  if negb (install config)
  then mret true
  else
    say (SpinnerStart "Installing dependencies...") ;;
    try_catch
      (perform (Run (install_command (packageManager config))) ;;
       say (SpinnerSucceed "Installed dependencies") ;;
       mret true)
      (say (SpinnerFail "Failed to install dependencies") ;;
       say (ConsoleError (nl +:+ "You can install dependencies manually by running:")) ;;
       say (ConsoleError ("  cd " +:+ show_name (name config) +:+ " && "
                          +:+ pm_name (packageManager config) +:+ " install" +:+ nl)) ;;
       mret false).

Definition git_commit_command : string :=
  "git commit -m " +:+ dq +:+ "feat: initial commit from create-filament" +:+ dq.

(** lines 975-1001 *)
Definition initializeGit (config : ProjectConfig) : IO bool :=
  enter InitializeGit ;;
  if negb (git config)
  then mret true
  else
    say (SpinnerStart "Initializing git repository...") ;;
    try_catch
      (perform (Run "git init") ;;
       perform (Run "git add .") ;;
       (if truthy_bool (gitCommit config)
        then
          perform (Run git_commit_command) ;;
          say (SpinnerSucceed "Initialized git repository with initial commit")
        else say (SpinnerSucceed "Initialized git repository")) ;;
       mret true)
      (say (SpinnerFail "Failed to initialize git repository") ;;
       mret false).

(** The [steps] array of lines 1055-1065. *)
Definition steps (config : ProjectConfig) : list (IO bool) :=
  [ createProjectStructure config;
    copyTemplateFiles config;
    generatePackageJson config;
    generateConfigFiles config;
    generateDockerFiles config;
    generateCIFiles config;
    generateREADME config;
    installDependencies config;
    initializeGit config ].

Definition step_names : list StepName :=
  [ CreateProjectStructure; CopyTemplateFiles; GeneratePackageJson;
    GenerateConfigFiles; GenerateDockerFiles; GenerateCIFiles;
    GenerateREADME; InstallDependencies; InitializeGit ].

Definition setup_failed : Line := ConsoleError (nl +:+ "✖ Setup failed" +:+ nl).

(** The loop of lines 1067-1072. *)
Fixpoint run_steps (todo : list (IO bool)) : IO unit :=
  match todo with
  | [] => mret tt
  | step :: rest =>
      ok ← step;
      if negb ok then say setup_failed ;; exit 1
      else run_steps rest
  end.

(** lines 33-42; colours are left out here and below. *)
Definition banner : string :=
  concat_lines
    [ "";
      "   _____ _ _                            _   ";
      "  |  ___(_) | __ _ _ __ ___   ___ _ __ | |_ ";
      "  | |_  | | |/ _` | '_ ` _ " +:+ bs +:+ " / _ " +:+ bs +:+ " '_ " +:+ bs +:+ "| __|";
      "  |  _| | | | (_| | | | | | |  __/ | | | |_ ";
      "  |_|   |_|_|" +:+ bs +:+ "__,_|_| |_| |_|" +:+ bs +:+ "___|_| |_|" +:+ bs +:+ "__|";
      "  " ].

Definition printBanner : IO unit :=
  say (ConsoleLog banner) ;;
  say (ConsoleLog ("  A TypeScript API framework with metadata-driven middleware" +:+ nl)).

(** lines 44-163: the prompt, then the resolution of its answers. *)
Definition promptForConfig (projectName : option string) (user : User)
  : IO ProjectConfig :=
  match prompts projectName user with
  | Some answers => mret (resolve projectName answers)
  | None => say (ConsoleLog (nl +:+ "✖ Operation cancelled")) ;; exit 0
  end.

(** lines 1003-1031 *)
Definition printNextSteps (config : ProjectConfig) : IO unit :=
  let pm := pm_name (packageManager config) in
  say (ConsoleLog (nl +:+ "🎉 Success! Created " +:+ show_name (name config) +:+ nl)) ;;
  say (ConsoleLog ("Next steps:" +:+ nl)) ;;
  say (ConsoleLog ("  cd " +:+ show_name (name config))) ;;
  when (negb (install config)) (say (ConsoleLog ("  " +:+ pm +:+ " install"))) ;;
  say (ConsoleLog ("  " +:+ pm +:+ " run dev")) ;;
  say (ConsoleLog (nl +:+ "Your app will be running at http://localhost:3000")) ;;
  say (ConsoleLog (nl +:+ "Commands:")) ;;
  say (ConsoleLog ("  " +:+ pm +:+ " run dev          Start development server")) ;;
  say (ConsoleLog ("  " +:+ pm +:+ " test             Run tests")) ;;
  say (ConsoleLog ("  " +:+ pm +:+ " run build        Build for production")) ;;
  when (docker (features config))
    (say (ConsoleLog ("  " +:+ pm +:+ " run docker:build Build Docker image"))) ;;
  say (ConsoleLog (nl +:+ "Documentation:")) ;;
  say (ConsoleLog "  README.md            Getting started guide") ;;
  say (ConsoleLog "  ARCHITECTURE.md      Project structure explained") ;;
  say (ConsoleLog (nl +:+ "Happy coding! 🔥" +:+ nl)).

(** The two directory checks of [main] (lines 1040-1043 and 1049-1052):
    the project directory must not be there yet. *)
Definition refuse_existing (nm : option string) : IO unit :=
  there ← exists_sync [];
  if (there : bool) then
    say (ConsoleError (nl +:+ "✖ Directory " +:+ dq +:+ show_name nm +:+ dq
                       +:+ " already exists" +:+ nl)) ;;
    exit 1
  else mret tt.

(** lines 1033-1081.  [argv] is [process.argv.slice(2)].  The call
    [resolve(process.cwd(), config.name)] raises on an undefined name,
    and the [catch] of the last lines turns every exception into exit
    code 1. *)
Definition main (argv : list string) (user : User) : IO unit :=
  try_catch
    (printBanner ;;
     let projectName := head argv in
     when (truthy_string projectName) (refuse_existing projectName) ;;
     config ← promptForConfig projectName user;
     (if name config is Some _ then mret tt else throw) ;;
     refuse_existing (name config) ;;
     run_steps (steps config) ;;
     printNextSteps config)
    (say (ConsoleError (nl +:+ "✖ An error occurred:" +:+ nl)) ;;
     say ConsoleErrorObject ;;
     exit 1).

End Pipeline.

(** * Vocabulary of the properties *)

(** The same answers with another "additional features" selection. *)
Definition with_additionalFeatures (sel : option (list string)) (answers : Answers)
  : Answers :=
  mkAnswers (a_name answers) (a_template answers) sel
            (a_packageManager answers) (a_git answers) (a_gitCommit answers).

(** The fixed feature sets of the two upper tiers. *)
Definition tier_default (t : Template) : Features :=
  mkFeatures true true github true true (bool_decide (t = full)).

(** The membership tests of the minimal tier. *)
Definition membership_features (sel : list string) : Features :=
  mkFeatures (includes sel "docker") (includes sel "dockerCompose")
             (if includes sel "ci-github" then github else none)
             (includes sel "openapi") (includes sel "auth")
             (includes sel "observability").

(** [m] takes every world to an [R]-related one, however it ends. *)
Definition respects (R : relation World) {A} (m : IO A) : Prop :=
  ∀ w, R w (m w).2.



(** What an effect leaves alone: the path [p] holds the same after it. *)
Definition untouched (p : list string) (e : Effect) : bool :=
  match e with
  | Mkdir q => bool_decide (p ∉ prefixes q)
  | RmRf q => bool_decide (¬ q `prefix_of` p)
  | Cp _ dst => bool_decide (¬ dst `prefix_of` p) && bool_decide (p ∉ prefixes dst)
  | WriteFile q _ => bool_decide (q ≠ p)
  | ChmodX _ => true
  | Run cmd => bool_decide (p ≠ [".git"]) || negb (String.eqb cmd "git init")
  end.

(** No step function was entered in between. *)
Definition same_calls : relation World := fun w w' => calls w' = calls w.

(** The path [p] holds what it held. *)
Definition same_at (p : list string) : relation World :=
  fun w w' => fs w' !! p = fs w !! p.

(** The I/O calls made so far are still the beginning of the record:
    whatever ran added calls and undid none. *)
Definition trace_grows : relation World :=
  fun w w' => trace w `prefix_of` trace w'.

(** The project directory, once there, is still there. *)
Definition keeps_root : relation World :=
  fun w w' => is_Some (fs w !! []) → is_Some (fs w' !! []).


(** A step function records its entry and nothing else in [calls]. *)
Definition enters (s : StepName) (m : IO bool) : Prop :=
  ∀ w, calls (m w).2 = calls w ++ [s].

(** ** Sample inputs *)

Definition no_throw : list Effect → Effect → bool := fun _ _ => false.

Definition write_fails (p : list string) : list Effect → Effect → bool :=
  fun _ e => match e with WriteFile q _ => bool_decide (q = p) | _ => false end.

Definition run_fails (cmd : string) : list Effect → Effect → bool :=
  fun _ e => match e with Run c => String.eqb c cmd | _ => false end.

Definition sample_templates
  : Template → option (string → option (list (list string * Node))) :=
  fun _ => Some (fun sub =>
    if String.eqb sub "src" then
      Some [ (["index.ts"], File (Text "import { createApp } from 'filamentjs';")) ]
    else if String.eqb sub "tests" then
      Some [ (["integration"], Dir);
             (["integration"; "example.test.ts"],
              File (Text "import test from 'node:test';")) ]
    else None).

Definition blank : list string → ProjectConfig → Content := fun _ _ => Text "".

(** A working directory without a blank in its path. *)
Definition sample_absolute : string → string := fun nm => "/home/dev/" +:+ nm.


Definition empty_world : World := mkWorld ∅ [] [] [].

Definition api_answers : Answers := mkAnswers None api None npm true (Some true).
Definition api_config : ProjectConfig := resolve (Some "my-api") api_answers.

Definition minimal_answers : Answers :=
  mkAnswers None minimal (Some ["ci-github"]) pnpm false None.

Definition api_user : User := mkUser [] api [] npm true true.



(** An environment where the install command and the write of the
    [Dockerfile] both fail, and a configuration without Docker. *)
Definition install_and_dockerfile_fail : list Effect → Effect → bool :=
  fun tr e => run_fails "npm install" tr e || write_fails ["Dockerfile"] tr e.

Definition bare_config : ProjectConfig :=
  resolve (Some "svc") (mkAnswers None minimal None npm true (Some true)).

(** * The remaining generated contents *)

(** ** [package.json] (lines 236-309) *)

(** A possibly undefined string as a property value: [JSON.stringify]
    leaves an undefined property out. *)
Definition js_string (v : option string) : JValue :=
  match v with Some s => JStr s | None => JUndefined end.

(** The [dependencies] record with its three conditional blocks and the
    two assignments that follow them. *)
Definition packageJson_dependencies (config : ProjectConfig) : JValue :=
  let dependencies := JObj [ ("filamentjs", JStr "^0.1.0") ] in
  let dependencies :=
    if auth (features config) then
      js_set "jsonwebtoken" (JStr "^9.0.2") (js_set "redis" (JStr "^4.6.0") dependencies)
    else dependencies in
  let dependencies :=
    if openapi (features config) then
      js_set "swagger-ui-express" (JStr "^5.0.0") dependencies
    else dependencies in
  let dependencies :=
    if observability (features config) then
      js_set "prom-client" (JStr "^15.1.0")
        (js_set "@opentelemetry/sdk-node" (JStr "^0.54.0")
           (js_set "@opentelemetry/api" (JStr "^1.9.0") dependencies))
    else dependencies in
  js_set "pino-pretty" (JStr "^10.3.0") (js_set "pino" (JStr "^8.17.0") dependencies).

Definition packageJson_devDependencies (config : ProjectConfig) : JValue :=
  let devDependencies :=
    JObj [ ("@types/node", JStr "^20.0.0");
           ("typescript", JStr "^5.0.0");
           ("tsx", JStr "^4.7.0");
           ("eslint", JStr "^9.0.0");
           ("@typescript-eslint/parser", JStr "^8.0.0");
           ("@typescript-eslint/eslint-plugin", JStr "^8.0.0");
           ("prettier", JStr "^3.2.4");
           ("husky", JStr "^9.0.0");
           ("lint-staged", JStr "^15.2.0");
           ("@commitlint/cli", JStr "^19.0.0");
           ("@commitlint/config-conventional", JStr "^19.0.0");
           ("depcheck", JStr "^1.4.7");
           ("test-battery", JStr "^3.2.1") ] in
  let devDependencies :=
    if auth (features config) then
      js_set "@types/jsonwebtoken" (JStr "^9.0.5") devDependencies
    else devDependencies in
  if openapi (features config) then
    js_set "@types/swagger-ui-express" (JStr "^4.1.6") devDependencies
  else devDependencies.

(** The [packageJson] object, with the script entries added after its
    construction. *)
Definition packageJson (config : ProjectConfig) : JValue :=
  let packageJson :=
    JObj [ ("name", js_string (name config));
           ("version", JStr "1.0.0");
           ("description", JStr "A Filament API application");
           ("type", JStr "module");
           ("scripts",
            JObj [ ("dev", JStr "tsx watch src/index.ts");
                   ("build", JStr "tsc");
                   ("start", JStr "node dist/index.js");
                   ("test", JStr "node --test --experimental-test-coverage tests/**/*.test.ts");
                   ("test:watch", JStr "node --test --watch tests/**/*.test.ts");
                   ("lint", JStr "eslint src/**/*.ts");
                   ("lint:fix", JStr "eslint src/**/*.ts --fix");
                   ("format", JStr "prettier --write src/**/*.ts");
                   ("type-check", JStr "tsc --noEmit");
                   ("prepare", JStr "husky");
                   ("depcheck", JStr "depcheck") ]);
           ("dependencies", packageJson_dependencies config);
           ("devDependencies", packageJson_devDependencies config) ] in
  let packageJson :=
    if docker (features config) then
      js_alter "scripts"
        (fun scripts =>
           js_set "docker:run" (JStr ("docker run -p 3000:3000 " +:+ show_name (name config)))
             (js_set "docker:build"
                (JStr ("docker build -t " +:+ show_name (name config) +:+ " ."))
                scripts))
        packageJson
    else packageJson in
  if dockerCompose (features config) then
    js_alter "scripts"
      (fun scripts =>
         js_set "docker:down" (JStr "docker-compose down")
           (js_set "docker:up" (JStr "docker-compose up") scripts))
      packageJson
  else packageJson.

(** ** [.env.example] (lines 420-444) *)

Definition envExample (config : ProjectConfig) : string :=
  let envExample :=
    unlines [ "# Server"; "PORT=3000"; "NODE_ENV=development"; "";
              "# Logging"; "LOG_LEVEL=info" ] in
  let envExample :=
    if auth (features config) then
      envExample +:+
      unlines [ ""; "# Authentication";
                "JWT_SECRET=your-secret-here-change-in-production";
                "JWT_EXPIRY=7d"; "";
                "# Redis"; "REDIS_URL=redis://localhost:6379" ]
    else envExample in
  if observability (features config) then
    envExample +:+
    unlines [ ""; "# OpenTelemetry";
              "OTEL_EXPORTER_OTLP_ENDPOINT=http://localhost:4318" ]
  else envExample.

(** ** [README.md] (lines 709-834) *)

(** [s.replace(/\n{2,}/g, '\n\n')]: every run of two or more newlines
    becomes two newlines.  Written as one pass over the text that lets
    through at most two newlines of a run; [run] counts the newlines just
    passed. *)
Fixpoint collapse_from (run : nat) (s : string) : string :=
  match s with
  | EmptyString => EmptyString
  | String c rest =>
      if Ascii.eqb c (ascii_of_nat 10) then
        if Nat.ltb run 2 then String c (collapse_from (S run) rest)
        else collapse_from run rest
      else String c (collapse_from 0 rest)
  end.

Definition collapse_newlines (s : string) : string := collapse_from 0 s.

(** The pieces of a template literal put together. *)
Definition cat (pieces : list string) : string := String.concat "" pieces.

Definition readme_raw (config : ProjectConfig) : string :=
  let nm := show_name (name config) in
  let pm := pm_name (packageManager config) in
  cat
    [ "# "; nm; nl;
      nl;
      "A Filament API application."; nl;
      nl;
      "## Quick Start"; nl;
      nl;
      "```bash"; nl;
      "# Install dependencies"; nl;
      pm; " install"; nl;
      nl;
      "# Start development server"; nl;
      pm; " run dev"; nl;
      nl;
      "# Server running at http://localhost:3000"; nl;
      "```"; nl;
      nl;
      "## Available Scripts"; nl;
      nl;
      "- `"; pm; " run dev` - Start with hot reload"; nl;
      "- `"; pm; " test` - Run tests"; nl;
      "- `"; pm; " run build` - Build for production"; nl;
      "- `"; pm; " start` - Run production build"; nl;
      "- `"; pm; " run lint` - Lint code"; nl;
      "- `"; pm; " run format` - Format code"; nl;
      (if docker (features config) then
         cat
         [ "- `"; pm; " run docker:build` - Build Docker image"; nl ]
       else "");
      (if dockerCompose (features config) then
         cat
         [ "- `"; pm; " run docker:up` - Run with Docker Compose"; nl ]
       else "");
      nl;
      "## Project Structure"; nl;
      nl;
      "```text"; nl;
      nm; "/"; nl;
      "├── src/"; nl;
      "│   ├── meta/           # Metadata interface and defaults"; nl;
      "│   ├── middleware/     # Middleware functions"; nl;
      "│   ├── routes/         # Route definitions"; nl;
      "│   ├── handlers/       # Post-request handlers"; nl;
      "│   ├── config/         # Application configuration"; nl;
      "│   └── index.ts        # Entry point"; nl;
      "├── tests/"; nl;
      "│   ├── integration/    # Integration tests"; nl;
      "│   └── unit/          # Unit tests"; nl;
      (if docker (features config) then
         cat
         [ "├── Dockerfile"; nl ]
       else "");
      (if dockerCompose (features config) then
         cat
         [ "├── docker-compose.yml"; nl ]
       else "");
      "└── package.json"; nl;
      "```"; nl;
      nl;
      "## Endpoints"; nl;
      nl;
      "- `GET /health` - Health check"; nl;
      nl;
      (if auth (features config) then
         cat
         [ nl;
           "## Authentication"; nl;
           nl;
           "This project includes JWT and OAuth middleware. See `src/middleware/` for implementation."; nl;
           nl;
           "Configure in `.env`:"; nl;
           nl;
           "```bash"; nl;
           "JWT_SECRET=your-secret-here"; nl;
           "REDIS_URL=redis://localhost:6379"; nl;
           "```"; nl ]
       else "");
      nl;
      nl;
      (if openapi (features config) then
         cat
         [ nl;
           "## API Documentation"; nl;
           nl;
           "OpenAPI documentation available at: [http://localhost:3000/docs](http://localhost:3000/docs)"; nl ]
       else "");
      nl;
      nl;
      (if observability (features config) then
         cat
         [ nl;
           "## Observability"; nl;
           nl;
           "This project includes OpenTelemetry tracing and Prometheus metrics."; nl;
           nl;
           "Metrics endpoint: [http://localhost:3000/metrics](http://localhost:3000/metrics)"; nl ]
       else "");
      nl;
      nl;
      "## Database Integration"; nl;
      nl;
      "Filament doesn't include a database ORM by design. Choose what works for you:"; nl;
      nl;
      "### Recommended Options"; nl;
      nl;
      "**Prisma** (TypeScript-first, great DX)"; nl;
      nl;
      "```bash"; nl;
      pm; " install prisma @prisma/client"; nl;
      "npx prisma init"; nl;
      "```"; nl;
      nl;
      "**Drizzle** (Lightweight, SQL-like)"; nl;
      nl;
      "```bash"; nl;
      pm; " install drizzle-orm"; nl;
      "```"; nl;
      nl;
      "See [ARCHITECTURE.md](./ARCHITECTURE.md) for integration examples."; nl;
      nl;
      "## Development"; nl;
      nl;
      "1. Copy `.env.example` to `.env` and configure"; nl;
      "2. Run `"; pm; " run dev`"; nl;
      "3. Make changes - server auto-reloads"; nl;
      nl;
      "## Production"; nl;
      nl;
      "```bash"; nl;
      pm; " run build"; nl;
      pm; " start"; nl;
      "```"; nl;
      nl;
      (if docker (features config) then
         cat
         [ nl;
           "Or with Docker:"; nl;
           nl;
           "```bash"; nl;
           "docker build -t "; nm; " ."; nl;
           "docker run -p 3000:3000 "; nm; nl;
           "```"; nl ]
       else "");
      nl;
      nl;
      "## Testing"; nl;
      nl;
      "```bash"; nl;
      pm; " test"; nl;
      "```"; nl;
      nl;
      "## License"; nl;
      nl;
      "ISC"; nl ].

Definition readme (config : ProjectConfig) : string :=
  collapse_newlines (readme_raw config).

(** The generated contents spelled out above, by path; [static] gives the
    others. *)
Definition file_content (static : list string → Content) (p : list string)
    (config : ProjectConfig) : Content :=
  if bool_decide (p = ["package.json"]) then Json (packageJson config)
  else if bool_decide (p = [".env.example"]) then Text (envExample config)
  else if bool_decide (p = ["README.md"]) then Text (readme config)
  else static p.

(** * Vocabulary of the further properties *)

Definition newline : ascii := ascii_of_nat 10.

(** The number of newlines a text begins with. *)
Fixpoint leading_newlines (s : string) : nat :=
  match s with
  | String c rest => if Ascii.eqb c newline then S (leading_newlines rest) else 0
  | EmptyString => 0
  end.

(** The text without its newlines. *)
Fixpoint without_newlines (s : string) : string :=
  match s with
  | String c rest =>
      if Ascii.eqb c newline then without_newlines rest
      else String c (without_newlines rest)
  | EmptyString => EmptyString
  end.

(** Three newlines in a row. *)
Definition three_newlines : string := nl +:+ nl +:+ nl.

(** A run of [k] newlines. *)
Fixpoint newlines (k : nat) : string :=
  match k with
  | O => EmptyString
  | S k => String newline (newlines k)
  end.

(** The characters of a project name, written out: the lowercase letters,
    the digits, the hyphen and the underscore. *)
Definition name_characters : list ascii :=
  list_ascii_of_string "abcdefghijklmnopqrstuvwxyz0123456789-_".

(** The tokens the "additional features" question offers. *)
Definition feature_tokens : list string :=
  [ "docker"; "dockerCompose"; "ci-github"; "openapi"; "auth"; "observability" ].

(** The directories of [createProjectStructure], with the parent that
    [recursive] creates for the two test directories. *)
Definition skeleton_dirs : list (list string) :=
  [ []; ["src"]; ["src"; "meta"]; ["src"; "middleware"]; ["src"; "routes"];
    ["src"; "handlers"]; ["src"; "config"];
    ["tests"]; ["tests"; "integration"]; ["tests"; "unit"] ].

(** The paths [createProjectStructure] hands to [mkdirSync]. *)
Definition skeleton_calls : list (list string) :=
  [ []; ["src"]; ["src"; "meta"]; ["src"; "middleware"]; ["src"; "routes"];
    ["src"; "handlers"]; ["src"; "config"];
    ["tests"; "integration"]; ["tests"; "unit"] ].

Definition is_file (entry : option Node) : bool :=
  match entry with Some (File _) => true | _ => false end.

(** A regular file sits at the path or on the way to it: there
    [mkdirSync(p, { recursive: true })] raises. *)
Definition file_in_the_way (m : gmap (list string) Node) (p : list string) : bool :=
  existsb (fun q => is_file (m !! q)) (prefixes p).

(** An environment that refuses exactly the [mkdir] calls a file of [m]
    is in the way of. *)
Definition mkdir_refused_over (m : gmap (list string) Node)
  : list Effect → Effect → bool :=
  fun _ e => match e with Mkdir p => file_in_the_way m p | _ => false end.

(** A directory that holds some notes and an empty [src]. *)
Definition notes_world : World :=
  mkWorld {[ [] := Dir; ["NOTES.md"] := File (Text "to do"); ["src"] := Dir ]} [] [] [].




(** The commands of [initializeGit], in order. *)
Definition git_commands (config : ProjectConfig) : list Effect :=
  [ Run "git init"; Run "git add ." ]
  ++ if truthy_bool (gitCommit config) then [ Run git_commit_command ] else [].

Definition is_chmod (e : Effect) : bool :=
  match e with ChmodX _ => true | _ => false end.

(** The files of [generateConfigFiles]. *)
Definition config_files : list (list string) :=
  [ ["tsconfig.json"]; ["eslint.config.js"]; [".prettierrc"]; [".gitignore"];
    [".env.example"]; [".husky"; "pre-commit"]; [".husky"; "commit-msg"];
    [".lintstagedrc"]; ["commitlint.config.js"] ].

(** The files every completed run leaves. *)
Definition always_files : list (list string) :=
  ["package.json"] :: config_files ++ [ ["README.md"]; ["ARCHITECTURE.md"] ].

(** The lines a computation added to the console. *)
Definition new_lines (w w' : World) : list Line :=
  drop (length (console w)) (console w').

Definition is_spinner_fail (l : Line) : bool :=
  match l with SpinnerFail _ => true | _ => false end.

(** An environment where only [chmod] fails. *)
Definition chmod_fails : list Effect → Effect → bool := fun _ e => is_chmod e.

(** An environment where [git add] fails. *)
Definition git_add_fails : list Effect → Effect → bool := run_fails "git add .".

(** A world where the project directory is already there. *)
Definition occupied_world : World := mkWorld {[ [] := Dir ]} [] [] [].

(** The generated contents, with empty text for the files not spelled out. *)
Definition generated : list string → ProjectConfig → Content :=
  file_content (fun _ => Text "").

(** A template directory that holds neither [src] nor [tests]. *)
Definition bare_templates
  : Template → option (string → option (list (list string * Node))) :=
  fun _ => Some (fun _ => None).


(** * Properties of the configuration resolution *)

Lemma parse_features_upper_tier (answers : Answers) :
  a_template answers = api ∨ a_template answers = full →
  parse_features answers = tier_default (a_template answers).
Proof.
  intros Htier. unfold parse_features, override_block, full_block, tier_block.
  destruct Htier as [-> | ->]; reflexivity.
Qed.

Lemma parse_features_minimal (answers : Answers) :
  a_template answers = minimal →
  parse_features answers =
    match a_additionalFeatures answers with
    | Some sel => membership_features sel
    | None => initial_features
    end.
Proof.
  intros Hmin. unfold parse_features, override_block, full_block, tier_block.
  rewrite Hmin. simpl. destruct (a_additionalFeatures answers); reflexivity.
Qed.

(** C1: with the [api] or the [full] template the resolved features are the
    tier's fixed set (everything on, observability only for [full]),
    whatever the "additional features" answer is: replacing that answer by
    any other one, present or absent, resolves to the same record. *)
Theorem upper_tier_features_fixed (projectName : option string) (answers : Answers) :
  a_template answers = api ∨ a_template answers = full →
  features (resolve projectName answers)
    = mkFeatures true true github true true (bool_decide (a_template answers = full))
  ∧ ∀ sel sel',
      features (resolve projectName (with_additionalFeatures sel answers))
      = features (resolve projectName (with_additionalFeatures sel' answers)).
Proof.
  intros Htier. split.
  - simpl. by rewrite parse_features_upper_tier.
  - intros sel sel'. simpl.
    rewrite !parse_features_upper_tier by exact Htier. reflexivity.
Qed.

Lemma upper_tier_features_fixed_witness :
  let answers := mkAnswers None api (Some []) npm true (Some true) in
  (a_template answers = api ∨ a_template answers = full)
  ∧ features (resolve (Some "my-api") answers)
      = mkFeatures true true github true true false
  ∧ features (resolve (Some "my-api") (with_additionalFeatures (Some []) answers))
      = features (resolve (Some "my-api")
                    (with_additionalFeatures (Some ["observability"]) answers)).
Proof.
  intros answers.
  assert (Htier : a_template answers = api ∨ a_template answers = full)
    by (left; reflexivity).
  split; [exact Htier |].
  destruct (upper_tier_features_fixed (Some "my-api") answers Htier) as [Hfix Hsame].
  split; [exact Hfix | exact (Hsame (Some []) (Some ["observability"]))].
Defined.

(** C2: with the [minimal] template and a supplied selection, every flag of
    the resolved features is the membership test of its token in the
    selection ([ci] is [github] when [ci-github] is selected and [none]
    otherwise); nothing of the initial values is kept, and the empty
    selection gives the all-false record. *)
Theorem minimal_features_are_membership_tests
    (projectName : option string) (answers : Answers) (sel : list string) :
  a_template answers = minimal →
  a_additionalFeatures answers = Some sel →
  features (resolve projectName answers)
    = mkFeatures (includes sel "docker") (includes sel "dockerCompose")
                 (if includes sel "ci-github" then github else none)
                 (includes sel "openapi") (includes sel "auth")
                 (includes sel "observability")
  ∧ (sel = [] → features (resolve projectName answers) = initial_features).
Proof.
  intros Hmin Hsel. simpl. rewrite (parse_features_minimal _ Hmin), Hsel.
  split; [reflexivity | intros ->; reflexivity].
Qed.

Lemma minimal_features_are_membership_tests_witness :
  let answers := mkAnswers (Some "my-api") minimal (Some ["docker"; "auth"]) npm true (Some true) in
  a_template answers = minimal
  ∧ a_additionalFeatures answers = Some ["docker"; "auth"]
  ∧ features (resolve None answers) = mkFeatures true false none false true false.
Proof.
  intros answers. split; [reflexivity |]. split; [reflexivity |].
  exact (proj1 (minimal_features_are_membership_tests None answers ["docker"; "auth"]
                  eq_refl eq_refl)).
Defined.

(** * Reasoning about [IO] computations *)

Lemma bind_unfold {A B} (m : IO A) (k : A → IO B) (w : World) :
  (m ≫= k) w =
    match m w with
    | (Val a, w') => k a w'
    | (Throw, w') => (Throw, w')
    | (Exit c, w') => (Exit c, w')
    end.
Proof. reflexivity. Qed.


Lemma enter_bind {B} (s : StepName) (k : unit → IO B) (w : World) :
  (enter s ≫= k) w = k tt (mkWorld (fs w) (trace w) (console w) (calls w ++ [s])).
Proof. reflexivity. Qed.

Lemma say_bind {B} (l : Line) (k : unit → IO B) (w : World) :
  (say l ≫= k) w = k tt (mkWorld (fs w) (trace w) (console w ++ [l]) (calls w)).
Proof. reflexivity. Qed.

Lemma mret_run {A} (a : A) (w : World) : (mret a : IO A) w = (Val a, w).
Proof. reflexivity. Qed.

Lemma try_catch_unfold {A} (body handler : IO A) (w : World) :
  try_catch body handler w =
    match body w with
    | (Val a, w') => (Val a, w')
    | (Throw, w') => handler w'
    | (Exit c, w') => (Exit c, w')
    end.
Proof. unfold try_catch. by destruct (body w) as [[a | | c] w']. Qed.

(** ** Relations between the world before and the world after *)

Section Frame.
Context (R : relation World) `{!PreOrder R}.

Lemma respects_ret {A} (a : A) : respects R (mret a).
Proof. intros w. simpl. reflexivity. Qed.

Lemma respects_throw {A} : respects R (@throw A).
Proof. intros w. simpl. reflexivity. Qed.

Lemma respects_exit {A} (c : nat) : respects R (@exit A c).
Proof. intros w. simpl. reflexivity. Qed.

Lemma respects_bind {A B} (m : IO A) (k : A → IO B) :
  respects R m → (∀ a, respects R (k a)) → respects R (m ≫= k).
Proof.
  intros Hm Hk w. rewrite bind_unfold. specialize (Hm w).
  destruct (m w) as [[a | | c] w1]; simpl in *; [| done | done].
  etrans; [exact Hm | apply Hk].
Qed.

Lemma respects_try_catch {A} (body handler : IO A) :
  respects R body → respects R handler → respects R (try_catch body handler).
Proof.
  intros Hb Hh w. unfold try_catch. specialize (Hb w).
  destruct (body w) as [[a | | c] w1]; simpl in *; [done | | done].
  etrans; [exact Hb | apply Hh].
Qed.

Lemma respects_when (b : bool) (m : IO unit) :
  respects R m → respects R (when b m).
Proof. intros Hm. destruct b; [exact Hm | apply respects_ret]. Qed.

Lemma respects_exists_sync (p : list string) : respects R (exists_sync p).
Proof. intros w. simpl. reflexivity. Qed.
End Frame.

(** Breaks a computation down to its primitive calls; [prim] settles those. *)
Ltac frame_with prim :=
  repeat lazymatch goal with
    | |- PreOrder _ => apply _
    | |- respects _ (_ ≫= _) => apply respects_bind; [apply _ | | intros ?]
    | |- respects _ (mret _) => apply respects_ret
    | |- respects _ (try_catch _ _) => apply respects_try_catch
    | |- respects _ (when _ _) => apply respects_when
    | |- respects _ (exists_sync _) => apply respects_exists_sync
    | |- respects _ throw => apply respects_throw
    | |- respects _ (exit _) => apply respects_exit
    | |- respects _ (if ?b then _ else _) => destruct b
    | |- respects _ (match ?o with Some _ => _ | None => _ end) => destruct o
    | |- respects _ _ => prim
    end.

(** ** How a computation can end *)












(** ** What an effect leaves alone *)

Lemma mkdir_p_lookup_other (p q : list string) (m : gmap (list string) Node) :
  p ∉ prefixes q → mkdir_p q m !! p = m !! p.
Proof.
  unfold mkdir_p. generalize (prefixes q) as l.
  induction l as [| x l IH]; intros Hp; [reflexivity |].
  apply not_elem_of_cons in Hp as [Hne Hp]. simpl.
  destruct (foldr _ m l !! x) eqn:E.
  - by apply IH.
  - rewrite lookup_insert_ne by done. by apply IH.
Qed.

Lemma rm_rf_lookup_other (p q : list string) (m : gmap (list string) Node) :
  ¬ q `prefix_of` p → rm_rf q m !! p = m !! p.
Proof.
  intros Hq. unfold rm_rf. apply option_eq. intros x.
  rewrite map_lookup_filter_Some. split; [by intros [? _] | by intros ?].
Qed.

Lemma cp_tree_lookup_other (p dst : list string) (tree : list (list string * Node))
    (m : gmap (list string) Node) :
  ¬ dst `prefix_of` p → p ∉ prefixes dst → cp_tree tree dst m !! p = m !! p.
Proof.
  intros Hpre Hp. unfold cp_tree.
  induction tree as [| [rel node] tree IH]; simpl.
  - by apply mkdir_p_lookup_other.
  - rewrite lookup_insert_ne; [exact IH |].
    intros <-. apply Hpre. by apply prefix_app_r.
Qed.

Lemma apply_effect_untouched (p : list string) (e : Effect) (m : gmap (list string) Node) :
  untouched p e = true → apply_effect e m !! p = m !! p.
Proof.
  destruct e as [q | q | tree dst | q c | q | cmd]; simpl; intros H.
  - apply mkdir_p_lookup_other. by apply bool_decide_eq_true in H.
  - apply rm_rf_lookup_other. by apply bool_decide_eq_true in H.
  - apply andb_true_iff in H as [H1 H2].
    apply bool_decide_eq_true in H1, H2. by apply cp_tree_lookup_other.
  - apply bool_decide_eq_true in H. by rewrite lookup_insert_ne.
  - reflexivity.
  - destruct (String.eqb cmd "git init"); [| reflexivity].
    rewrite orb_false_r in H. apply bool_decide_eq_true in H.
    unfold git_init. destruct (m !! [".git"]); [reflexivity |].
    by rewrite lookup_insert_ne.
Qed.

#[global] Instance same_calls_preorder : PreOrder same_calls.
Proof.
  split; [by intros w | intros a b c Hab Hbc]. unfold same_calls in *. congruence.
Qed.

#[global] Instance same_at_preorder (p : list string) : PreOrder (same_at p).
Proof.
  split; [by intros w | intros a b c Hab Hbc]. unfold same_at in *. congruence.
Qed.

#[global] Instance trace_grows_preorder : PreOrder trace_grows.
Proof.
  split; [intros w; by unfold trace_grows | intros a b c Hab Hbc].
  unfold trace_grows in *. by etrans.
Qed.

#[global] Instance keeps_root_preorder : PreOrder keeps_root.
Proof.
  split; [intros w; by unfold keeps_root | intros a b c Hab Hbc].
  unfold keeps_root in *. tauto.
Qed.




Section PipelineProperties.
Variable throws : list Effect -> Effect -> bool.
Variable absolute : string -> string.
Variable templates : Template -> option (string -> option (list (list string * Node))).
Variable boilerplate : list string -> ProjectConfig -> Content.

Lemma same_calls_say (l : Line) : respects same_calls (say l).
Proof. intros w. by cbv. Qed.

Lemma same_calls_perform (e : Effect) : respects same_calls (perform throws e).
Proof. intros w. unfold perform, same_calls. by destruct (throws (trace w) e). Qed.

Lemma same_at_say (p : list string) (l : Line) : respects (same_at p) (say l).
Proof. intros w. by cbv. Qed.

Lemma same_at_enter (p : list string) (s : StepName) : respects (same_at p) (enter s).
Proof. intros w. by cbv. Qed.

Lemma same_at_perform (p : list string) (e : Effect) :
  untouched p e = true → respects (same_at p) (perform throws e).
Proof.
  intros H w. unfold perform, same_at.
  destruct (throws (trace w) e); [done |]. simpl. by apply apply_effect_untouched.
Qed.

Lemma trace_grows_say (l : Line) : respects trace_grows (say l).
Proof. intros w. by unfold trace_grows. Qed.

Lemma trace_grows_enter (s : StepName) : respects trace_grows (enter s).
Proof. intros w. by unfold trace_grows. Qed.

Lemma trace_grows_perform (e : Effect) : respects trace_grows (perform throws e).
Proof.
  intros w. unfold perform, trace_grows.
  destruct (throws (trace w) e); [done |]. simpl. by apply prefix_app_r.
Qed.




Lemma enters_intro (s : StepName) (body : IO bool) :
  respects same_calls body → enters s (enter s ;; body).
Proof.
  intros Hb w. rewrite bind_unfold. simpl. apply (Hb (mkWorld _ _ _ _)).
Qed.

Lemma perform_bind_throw {B} (e : Effect) (k : unit → IO B) (w : World) :
  throws (trace w) e = true → (perform throws e ≫= k) w = (Throw, w).
Proof. intros H. rewrite bind_unfold. unfold perform. by rewrite H. Qed.

Lemma perform_bind_ok {B} (e : Effect) (k : unit → IO B) (w : World) :
  throws (trace w) e = false →
  (perform throws e ≫= k) w =
    k tt (mkWorld (apply_effect e (fs w)) (trace w ++ [e]) (console w) (calls w)).
Proof. intros H. rewrite bind_unfold. unfold perform. by rewrite H. Qed.

Lemma perform_throw (e : Effect) (w : World) :
  throws (trace w) e = true → perform throws e w = (Throw, w).
Proof. intros H. unfold perform. by rewrite H. Qed.

Lemma perform_ok (e : Effect) (w : World) :
  throws (trace w) e = false →
  perform throws e w =
    (Val tt, mkWorld (apply_effect e (fs w)) (trace w ++ [e]) (console w) (calls w)).
Proof. intros H. unfold perform. by rewrite H. Qed.

(** Runs a computation symbolically, with a case for every I/O call that
    may raise. *)
Ltac run_io :=
  repeat first
    [ progress cbn [fs trace console calls]
    | rewrite bind_unfold
    | rewrite try_catch_unfold
    | match goal with
      | |- context [perform throws ?e ?w] =>
          let E := fresh "E" in
          destruct (throws (trace w) e) eqn:E;
          [ rewrite (perform_throw e w E) | rewrite (perform_ok e w E) ]
      end
    | progress unfold say, enter, when, mret, IO_ret, ret
    | progress cbv beta iota ].

Ltac fs_lookup :=
  repeat first
    [ rewrite lookup_insert_eq
    | rewrite lookup_insert_ne by (intros ?; discriminate) ].

Local Abbreviation the_steps := (steps throws absolute templates boilerplate).
Local Abbreviation run := (run_steps).

Ltac open_step :=
  unfold createProjectStructure, copyTemplateFiles, generatePackageJson,
    generateConfigFiles, generateDockerFiles, generateCIFiles, generateREADME,
    installDependencies, initializeGit, copy_subtree, rm_rf_unquoted,
    write_boilerplate.

(** ** Facts about every step *)

Lemma steps_enter (config : ProjectConfig) :
  Forall2 enters step_names (the_steps config).
Proof.
  unfold step_names, steps.
  repeat apply List.Forall2_cons; try apply List.Forall2_nil;
    open_step; apply enters_intro;
    frame_with ltac:(first [apply same_calls_say | apply same_calls_perform]).
Qed.

Lemma steps_trace_grows (config : ProjectConfig) :
  Forall (respects trace_grows) (the_steps config).
Proof.
  unfold steps.
  repeat apply List.Forall_cons; try apply List.Forall_nil; open_step;
    frame_with ltac:(first [apply trace_grows_say | apply trace_grows_enter
                           | apply trace_grows_perform]).
Qed.



(** ** The loop *)

Lemma run_steps_cons (step : IO bool) (rest : list (IO bool)) (w : World) :
  run (step :: rest) w =
    match step w with
    | (Val true, w1) => run rest w1
    | (Val false, w1) =>
        (Exit 1, mkWorld (fs w1) (trace w1) (console w1 ++ [setup_failed]) (calls w1))
    | (Throw, w1) => (Throw, w1)
    | (Exit c, w1) => (Exit c, w1)
    end.
Proof.
  simpl. rewrite bind_unfold. destruct (step w) as [[[|] | | c] w1]; reflexivity.
Qed.

Lemma run_steps_done_inv (step : IO bool) (rest : list (IO bool)) (w w' : World) :
  run (step :: rest) w = (Val tt, w') →
  ∃ w1, step w = (Val true, w1) ∧ run rest w1 = (Val tt, w').
Proof.
  rewrite run_steps_cons.
  destruct (step w) as [[[|] | | c] w1]; intros H; try discriminate.
  by exists w1.
Qed.

(** When the steps of [done] all succeed and the next one fails, the loop
    stops there, whatever comes after. *)
Lemma run_steps_first_failure (done : list (IO bool)) (step : IO bool)
    (later : list (IO bool)) (w wk wk' : World) :
  run done w = (Val tt, wk) →
  step wk = (Val false, wk') →
  run (done ++ step :: later) w =
    (Exit 1, mkWorld (fs wk') (trace wk') (console wk' ++ [setup_failed]) (calls wk')).
Proof.
  revert w. induction done as [| s done IH]; intros w Hdone Hfail.
  - simpl in Hdone. injection Hdone as <-.
    change ([] ++ step :: later) with (step :: later).
    rewrite run_steps_cons, Hfail. reflexivity.
  - apply run_steps_done_inv in Hdone as (w1 & Hs & Hdone).
    change ((s :: done) ++ step :: later) with (s :: (done ++ step :: later)).
    rewrite run_steps_cons, Hs. by apply IH.
Qed.

Lemma run_steps_done_calls (names : list StepName) (todo : list (IO bool))
    (w w' : World) :
  Forall2 enters names todo →
  run todo w = (Val tt, w') →
  calls w' = calls w ++ names.
Proof.
  intros Hall. revert w. induction Hall as [| nm s names todo Hs _ IH]; intros w Hrun.
  - simpl in Hrun. injection Hrun as <-. by rewrite app_nil_r.
  - apply run_steps_done_inv in Hrun as (w1 & Es & Hrun).
    rewrite (IH _ Hrun). specialize (Hs w). rewrite Es in Hs. simpl in Hs.
    rewrite Hs, <- app_assoc. reflexivity.
Qed.

Lemma run_steps_done_respects (R : relation World) `{!PreOrder R}
    (todo : list (IO bool)) (w w' : World) :
  Forall (respects R) todo →
  run todo w = (Val tt, w') →
  R w w'.
Proof.
  intros Hall. revert w. induction Hall as [| s todo Hs _ IH]; intros w Hrun.
  - simpl in Hrun. by injection Hrun as <-.
  - apply run_steps_done_inv in Hrun as (w1 & Es & Hrun).
    specialize (Hs w). rewrite Es in Hs. etrans; [exact Hs | by apply IH].
Qed.




(** ** The install step and the git step *)

Lemma installDependencies_failure (config : ProjectConfig) (w : World) :
  install config = true →
  throws (trace w) (Run (install_command (packageManager config))) = true →
  installDependencies throws config w =
    (Val false,
     mkWorld (fs w) (trace w)
       (console w ++ [SpinnerStart "Installing dependencies...";
                      SpinnerFail "Failed to install dependencies"]
                  ++ manual_install_hint config)
       (calls w ++ [InstallDependencies])).
Proof.
  intros Hinst Hthrows. unfold installDependencies. rewrite Hinst.
  cbn [negb]. rewrite enter_bind, say_bind, try_catch_unfold.
  rewrite perform_bind_throw by exact Hthrows.
  rewrite !say_bind, mret_run. cbn [fs trace console calls manual_install_hint].
  by rewrite <- !app_assoc.
Qed.

Lemma initializeGit_disabled (config : ProjectConfig) (w : World) :
  git config = false →
  initializeGit throws config w =
    (Val true, mkWorld (fs w) (trace w) (console w) (calls w ++ [InitializeGit])).
Proof. intros Hgit. unfold initializeGit. rewrite Hgit. reflexivity. Qed.

(** C4, as the code has it: a failing install command makes the install
    step print the hint with the manual install command and report
    failure like any other step; the loop then prints "Setup failed" and
    leaves with exit code 1 without entering the git step.  That is the
    loop's answer to every failure: whichever step of whichever
    configuration reports failure, from whatever start, the run ends there
    with "Setup failed" and exit code 1, in the world that step left. *)
Theorem install_failure_prints_hint_and_aborts (config : ProjectConfig)
    (w w7 : World) :
  run (take 7 (the_steps config)) w = (Val tt, w7) →
  install config = true →
  throws (trace w7) (Run (install_command (packageManager config))) = true →
  run (the_steps config) w =
    (Exit 1,
     mkWorld (fs w7) (trace w7)
       (console w7 ++ [SpinnerStart "Installing dependencies...";
                       SpinnerFail "Failed to install dependencies"]
                   ++ manual_install_hint config ++ [setup_failed])
       (calls w7 ++ [InstallDependencies]))
  ∧ ∀ (config' : ProjectConfig) (k : nat) (step : IO bool) (w0 wk wk' : World),
      the_steps config' !! k = Some step →
      run (take k (the_steps config')) w0 = (Val tt, wk) →
      step wk = (Val false, wk') →
      run (the_steps config') w0 =
        (Exit 1,
         mkWorld (fs wk') (trace wk') (console wk' ++ [setup_failed]) (calls wk'))
      ∧ calls wk' = calls w0 ++ take (S k) step_names.
Proof.
  intros Hdone Hinst Hthrows. split.
  - pose proof (installDependencies_failure config w7 Hinst Hthrows) as Hfail.
    change (the_steps config)
      with (take 7 (the_steps config)
            ++ installDependencies throws config :: [initializeGit throws config]) at 1.
    rewrite (run_steps_first_failure _ _ _ _ _ _ Hdone Hfail).
    cbn [fs trace console calls]. by rewrite <- !app_assoc.
  - intros config' k step w0 wk wk' Hk Hk_done Hk_fail. split.
    + rewrite <- (take_drop_middle _ _ _ Hk).
      by rewrite (run_steps_first_failure _ _ _ _ _ _ Hk_done Hk_fail).
    + pose proof (steps_enter config') as Henter.
      destruct (Forall2_lookup_r _ _ _ _ _ Henter Hk) as (s & Hs & Hstep).
      pose proof (Hstep wk) as Hcalls. rewrite Hk_fail in Hcalls. cbn [snd] in Hcalls.
      rewrite Hcalls, (take_S_r _ _ _ Hs), app_assoc. f_equal.
      exact (run_steps_done_calls _ _ _ _ (Forall2_take _ _ _ k Henter) Hk_done).
Qed.

(** C5, as the code has it: the resolved [gitCommit] is the raw answer,
    unchanged, also when [git] is false; what keeps a commit from being
    made then is the git step, which returns at once without running any
    command, and the prompt, which does not ask the question, so that the
    value it resolves is absent. *)
Theorem gitCommit_passed_through (projectName : option string)
    (answers : Answers) (w : World) :
  a_git answers = false →
  gitCommit (resolve projectName answers) = a_gitCommit answers
  ∧ initializeGit throws (resolve projectName answers) w =
      (Val true, mkWorld (fs w) (trace w) (console w) (calls w ++ [InitializeGit]))
  ∧ ∀ user, prompts projectName user = Some answers →
            gitCommit (resolve projectName answers) = None.
Proof.
  intros Hgit. split; [reflexivity |]. split.
  - by apply initializeGit_disabled.
  - intros user Hp. unfold prompts in Hp.
    destruct (ask_name projectName user); [| discriminate].
    destruct (gives_up user); [discriminate |].
    injection Hp as <-. simpl in *. by rewrite Hgit.
Qed.

(** ** The Docker step *)

Lemma generateDockerFiles_success (config : ProjectConfig) (w w' : World) :
  generateDockerFiles throws config w = (Val true, w') →
  fs w' !! ["Dockerfile"] =
    (if docker (features config) then Some (File (Text dockerfile))
     else fs w !! ["Dockerfile"])
  ∧ (dockerCompose (features config) = true →
     fs w' !! ["docker-compose.yml"]
       = Some (File (Json (dockerCompose_object config)))).
Proof.
  unfold generateDockerFiles.
  destruct (docker (features config)), (dockerCompose (features config));
    cbn [negb andb]; run_io; intros H; simplify_eq; cbn [fs apply_effect];
    (split; [| intros Hc; try discriminate Hc]); fs_lookup; done.
Qed.

(** No step but the Docker step touches [Dockerfile]. *)
Lemma other_steps_keep_dockerfile (config : ProjectConfig) :
  Forall (respects (same_at ["Dockerfile"]))
    [ createProjectStructure throws config;
      copyTemplateFiles throws absolute templates config;
      generatePackageJson throws boilerplate config;
      generateConfigFiles throws boilerplate config;
      generateCIFiles throws config;
      generateREADME throws boilerplate config;
      installDependencies throws config;
      initializeGit throws config ].
Proof.
  repeat apply List.Forall_cons; try apply List.Forall_nil; open_step;
    frame_with ltac:(first [ apply same_at_say | apply same_at_enter
                           | apply same_at_perform; vm_compute; reflexivity ]).
Qed.

(** C7: when the run completes in a directory that had no [Dockerfile],
    the file is there exactly when [docker] is set; its text is the fixed
    one, which switches to the unprivileged user [nodejs] and declares a
    health check. *)
Theorem dockerfile_present_iff_docker (config : ProjectConfig) (w w' : World) :
  fs w !! ["Dockerfile"] = None →
  run (the_steps config) w = (Val tt, w') →
  (docker (features config) = true →
     fs w' !! ["Dockerfile"] = Some (File (Text dockerfile)))
  ∧ (docker (features config) = false → fs w' !! ["Dockerfile"] = None)
  ∧ contains (nl +:+ "USER nodejs" +:+ nl) dockerfile = true
  ∧ contains (nl +:+ "HEALTHCHECK ") dockerfile = true.
Proof.
  intros Hfresh Hrun.
  pose proof (other_steps_keep_dockerfile config) as Hkeep.
  unfold steps in Hrun.
  apply run_steps_done_inv in Hrun as (w1 & E1 & Hrun).
  apply run_steps_done_inv in Hrun as (w2 & E2 & Hrun).
  apply run_steps_done_inv in Hrun as (w3 & E3 & Hrun).
  apply run_steps_done_inv in Hrun as (w4 & E4 & Hrun).
  apply run_steps_done_inv in Hrun as (w5 & E5 & Hrun).
  apply run_steps_done_inv in Hrun as (w6 & E6 & Hrun).
  apply run_steps_done_inv in Hrun as (w7 & E7 & Hrun).
  apply run_steps_done_inv in Hrun as (w8 & E8 & Hrun).
  apply run_steps_done_inv in Hrun as (w9 & E9 & Hrun).
  simpl in Hrun. injection Hrun as <-.
  repeat match goal with
         | H : Forall _ (_ :: _) |- _ => apply Forall_cons in H as [? H]
         end.
  repeat match goal with
         | H : respects _ ?m, E : ?m ?w = _ |- _ =>
             specialize (H w); rewrite E in H; unfold same_at in H; simpl in H
         end.
  apply generateDockerFiles_success in E5 as [Hd _].
  assert (Hbefore : fs w4 !! ["Dockerfile"] = None) by congruence.
  assert (Hafter : fs w9 !! ["Dockerfile"] = fs w5 !! ["Dockerfile"]) by congruence.
  rewrite Hafter, Hd, Hbefore.
  split; [by intros -> |]. split; [by intros -> |].
  split; vm_compute; reflexivity.
Qed.

(** C8: the compose file the Docker step writes when [dockerCompose] is
    set describes the services [app] and [redis], with [redis] among the
    [depends_on] of [app], when [auth] is set, and the one service [app],
    depending on nothing, when it is not. *)
Theorem compose_services_follow_auth (config : ProjectConfig) (w w' : World) :
  dockerCompose (features config) = true →
  generateDockerFiles throws config w = (Val true, w') →
  ∃ compose,
    fs w' !! ["docker-compose.yml"] = Some (File (Json compose))
    ∧ (auth (features config) = true →
         js_keys (js_get "services" compose) = ["app"; "redis"]
         ∧ js_get "depends_on" (js_get "app" (js_get "services" compose))
             = JArr [JStr "redis"])
    ∧ (auth (features config) = false →
         js_keys (js_get "services" compose) = ["app"]
         ∧ js_get "depends_on" (js_get "app" (js_get "services" compose))
             = JArr []).
Proof.
  intros Hcompose Hrun. exists (dockerCompose_object config).
  split; [by apply (generateDockerFiles_success config w w') |].
  unfold dockerCompose_object, composeServices.
  split; intros ->; vm_compute; done.
Qed.

(** ** The CI step *)

Lemma parse_features_ci (answers : Answers) :
  ci (parse_features answers) = github ∨ ci (parse_features answers) = none.
Proof.
  unfold parse_features, override_block, full_block, tier_block.
  destruct (a_template answers); simpl.
  - destruct (a_additionalFeatures answers) as [sel |]; simpl; [| by right].
    destruct (includes sel "ci-github"); [by left | by right].
  - by left.
  - by left.
Qed.

(** C10: whatever the answers, the resolved [ci] is [github] or [none],
    never [gitlab]; so when it is not [none] the CI step takes its GitHub
    branch, and a successful step has made exactly two I/O calls: it
    created [.github/workflows] and wrote the one file [ci.yml] there. *)
Theorem resolved_ci_never_gitlab (projectName : option string)
    (answers : Answers) (w w' : World) :
  (ci (features (resolve projectName answers)) = github
   ∨ ci (features (resolve projectName answers)) = none)
  ∧ (ci (features (resolve projectName answers)) ≠ none →
     generateCIFiles throws (resolve projectName answers) w = (Val true, w') →
     ci (features (resolve projectName answers)) = github
     ∧ trace w' = trace w ++
         [ Mkdir [".github"; "workflows"];
           WriteFile [".github"; "workflows"; "ci.yml"]
             (Text (ciWorkflow +:+ dockerJob (resolve projectName answers))) ]
     ∧ fs w' !! [".github"; "workflows"; "ci.yml"]
         = Some (File (Text (ciWorkflow +:+ dockerJob (resolve projectName answers))))).
Proof.
  pose proof (parse_features_ci answers) as Hci.
  split; [exact Hci |]. intros Hnone.
  destruct Hci as [Hgh | Hn]; [| by destruct Hnone].
  unfold generateCIFiles. cbn [features resolve]. rewrite Hgh.
  cbn [bool_decide decide_rel]. 
  change (bool_decide (github = none)) with false.
  change (bool_decide (github = github)) with true.
  run_io; intros H; simplify_eq; cbn [fs trace apply_effect].
  split; [reflexivity |]. split; [by rewrite <- app_assoc |].
  by rewrite lookup_insert_eq.
Qed.

End PipelineProperties.

Lemma parse_features_in_place_spec (answers : Answers) (h : gmap nat Features) :
  parse_features_in_place answers h
  = (fresh (dom h), <[fresh (dom h) := parse_features answers]> h).
Proof.
  unfold parse_features_in_place, alloc, assign, parse_features.
  by rewrite !alter_insert_eq.
Qed.

Lemma promptForConfig_answers (projectName : option string) (user : User)
    (answers : Answers) (w : World) :
  prompts projectName user = Some answers →
  promptForConfig projectName user w = (Val (resolve projectName answers), w).
Proof. intros H. unfold promptForConfig. by rewrite H. Qed.

(** C9: resolution is a function of the raw answers alone.  Run in any
    world, it returns the same configuration and leaves the world as it
    was: no I/O call, no console line.  Run twice on the same answers, it
    builds two separate [features] objects with the same content, and no
    object that existed before is changed. *)
Theorem resolution_is_pure (projectName : option string) (answers : Answers)
    (h : gmap nat Features) :
  (∀ user w1 w2,
     prompts projectName user = Some answers →
     promptForConfig projectName user w1 = (Val (resolve projectName answers), w1)
     ∧ promptForConfig projectName user w2 = (Val (resolve projectName answers), w2))
  ∧ ∀ l1 h1 l2 h2,
      parse_features_in_place answers h = (l1, h1) →
      parse_features_in_place answers h1 = (l2, h2) →
      l1 ≠ l2
      ∧ h2 !! l1 = Some (features (resolve projectName answers))
      ∧ h2 !! l2 = Some (features (resolve projectName answers))
      ∧ ∀ l, l ∈ dom h → h2 !! l = h !! l.
Proof.
  split.
  - intros user w1 w2 Hp. split; by apply promptForConfig_answers.
  - intros l1 h1 l2 h2. rewrite !parse_features_in_place_spec.
    intros [= <- <-] [= <- <-]. cbn [features resolve].
    pose proof (is_fresh (dom h)) as Hf1.
    pose proof (is_fresh (dom (<[fresh (dom h) := parse_features answers]> h))) as Hf2.
    rewrite dom_insert_L in Hf2 at 2.
    assert (Hne : fresh (dom (<[fresh (dom h) := parse_features answers]> h))
                  ≠ fresh (dom h)) by set_solver.
    split; [congruence |]. split.
    { rewrite lookup_insert_ne by exact Hne. apply lookup_insert_eq. }
    split; [apply lookup_insert_eq |].
    intros l Hl. rewrite !lookup_insert_ne; [reflexivity | set_solver | set_solver].
Qed.

Lemma resolution_is_pure_witness :
  let user := mkUser ["my-api"] minimal ["docker"; "auth"] npm false true in
  let answers := mkAnswers (Some "my-api") minimal (Some ["docker"; "auth"]) npm false None in
  let busy := mkWorld ∅ [Run "git init"] [ConsoleLog "hello"] [InitializeGit] in
  prompts None user = Some answers
  ∧ (promptForConfig None user empty_world).1 = (promptForConfig None user busy).1
  ∧ (promptForConfig None user busy).2 = busy.
Proof.
  intros user answers busy.
  assert (Hp : prompts None user = Some answers) by reflexivity.
  split; [exact Hp |].
  destruct (resolution_is_pure None answers ∅) as [Hworld _].
  destruct (Hworld user empty_world busy Hp) as [E1 E2].
  rewrite E1, E2. split; reflexivity.
Defined.

(** An outcome is known once its result is. *)
Lemma with_final_world {A} (r : Res A * World) (a : Res A) :
  r.1 = a → r = (a, r.2).
Proof. intros <-. by destruct r. Qed.


(** C4 as stated fails: with an install command that exits nonzero the
    install step reports failure, the run leaves with exit code 1 and the
    git step is never entered, in the loop and in [main] alike. *)
Lemma install_failure_is_fatal :
  let throws := run_fails "npm install" in
  let todo := steps throws sample_absolute sample_templates blank api_config in
  let w7 := (run_steps (take 7 todo) empty_world).2 in
  run_steps (take 7 todo) empty_world = (Val tt, w7)
  ∧ (installDependencies throws api_config w7).1 = Val false
  ∧ (run_steps todo empty_world).1 = Exit 1
  ∧ calls (run_steps todo empty_world).2
      = [ CreateProjectStructure; CopyTemplateFiles; GeneratePackageJson;
          GenerateConfigFiles; GenerateDockerFiles; GenerateCIFiles;
          GenerateREADME; InstallDependencies ]
  ∧ (main throws sample_absolute sample_templates blank ["my-api"] api_user empty_world).1 = Exit 1.
Proof.
  intros throws todo w7.
  split.
  { apply (with_final_world (run_steps (take 7 todo) empty_world) (Val tt)).
    vm_compute. reflexivity. }
  split; [vm_compute; reflexivity |].
  split; [vm_compute; reflexivity |]. split; vm_compute; reflexivity.
Qed.

Lemma install_failure_prints_hint_and_aborts_witness :
  let throws := install_and_dockerfile_fail in
  let todo := steps throws sample_absolute sample_templates blank bare_config in
  let w7 := (run_steps (take 7 todo) empty_world).2 in
  let todo' := steps throws sample_absolute sample_templates blank api_config in
  let w4 := (run_steps (take 4 todo') empty_world).2 in
  let w5 := (generateDockerFiles throws api_config w4).2 in
  run_steps (take 7 todo) empty_world = (Val tt, w7)
  ∧ install bare_config = true
  ∧ throws (trace w7) (Run (install_command (packageManager bare_config))) = true
  ∧ run_steps todo empty_world =
      (Exit 1,
       mkWorld (fs w7) (trace w7)
         (console w7 ++ [SpinnerStart "Installing dependencies...";
                         SpinnerFail "Failed to install dependencies"]
                     ++ manual_install_hint bare_config ++ [setup_failed])
         (calls w7 ++ [InstallDependencies]))
  ∧ todo' !! 4 = Some (generateDockerFiles throws api_config)
  ∧ run_steps (take 4 todo') empty_world = (Val tt, w4)
  ∧ generateDockerFiles throws api_config w4 = (Val false, w5)
  ∧ run_steps todo' empty_world =
      (Exit 1, mkWorld (fs w5) (trace w5) (console w5 ++ [setup_failed]) (calls w5))
  ∧ calls w5 = calls empty_world ++ take 5 step_names.
Proof.
  intros throws todo w7 todo' w4 w5.
  assert (H1 : run_steps (take 7 todo) empty_world = (Val tt, w7)).
  { apply (with_final_world (run_steps (take 7 todo) empty_world) (Val tt)).
    vm_compute. reflexivity. }
  assert (H2 : install bare_config = true) by reflexivity.
  assert (H3 : throws (trace w7) (Run (install_command (packageManager bare_config))) = true)
    by (vm_compute; reflexivity).
  assert (H4 : todo' !! 4 = Some (generateDockerFiles throws api_config))
    by reflexivity.
  assert (H5 : run_steps (take 4 todo') empty_world = (Val tt, w4)).
  { apply (with_final_world (run_steps (take 4 todo') empty_world) (Val tt)).
    vm_compute. reflexivity. }
  assert (H6 : generateDockerFiles throws api_config w4 = (Val false, w5)).
  { apply (with_final_world (generateDockerFiles throws api_config w4) (Val false)).
    vm_compute. reflexivity. }
  destruct (install_failure_prints_hint_and_aborts throws sample_absolute sample_templates blank
              bare_config empty_world w7 H1 H2 H3) as [Hinstall Hany].
  destruct (Hany api_config 4 _ empty_world w4 w5 H4 H5 H6) as [Hexit Hcalls].
  split; [exact H1 |]. split; [exact H2 |]. split; [exact H3 |].
  split; [exact Hinstall |]. split; [exact H4 |]. split; [exact H5 |].
  split; [exact H6 |]. split; [exact Hexit | exact Hcalls].
Defined.

(** C5 as stated fails: answers with [git] false and a [gitCommit] of
    [true] resolve to a [gitCommit] of [true]. *)
Lemma gitCommit_not_forced_false :
  let answers := mkAnswers (Some "my-api") minimal None npm false (Some true) in
  a_git answers = false
  ∧ gitCommit (resolve None answers) = Some true
  ∧ gitCommit (resolve None answers) ≠ Some false.
Proof.
  intros answers. split; [reflexivity |]. split; [reflexivity | discriminate].
Qed.

Lemma gitCommit_passed_through_witness :
  let answers := mkAnswers (Some "my-api") minimal None npm false (Some true) in
  a_git answers = false
  ∧ gitCommit (resolve None answers) = Some true
  ∧ initializeGit no_throw (resolve None answers) empty_world
      = (Val true, mkWorld ∅ [] [] [InitializeGit]).
Proof.
  intros answers.
  assert (Hgit : a_git answers = false) by reflexivity.
  split; [exact Hgit |].
  destruct (gitCommit_passed_through no_throw None answers empty_world Hgit)
    as (Hraw & Hstep & _).
  split; [exact Hraw | exact Hstep].
Defined.

Lemma dockerfile_present_iff_docker_witness :
  let todo := steps no_throw sample_absolute sample_templates blank api_config in
  let w' := (run_steps todo empty_world).2 in
  fs empty_world !! ["Dockerfile"] = None
  ∧ run_steps todo empty_world = (Val tt, w')
  ∧ docker (features api_config) = true
  ∧ fs w' !! ["Dockerfile"] = Some (File (Text dockerfile)).
Proof.
  intros todo w'.
  assert (H1 : fs empty_world !! ["Dockerfile"] = None) by reflexivity.
  assert (H2 : run_steps todo empty_world = (Val tt, w')).
  { apply (with_final_world (run_steps todo empty_world) (Val tt)).
    vm_compute. reflexivity. }
  split; [exact H1 |]. split; [exact H2 |]. split; [reflexivity |].
  exact (proj1 (dockerfile_present_iff_docker no_throw sample_absolute sample_templates blank
                  api_config empty_world w' H1 H2) eq_refl).
Defined.

Lemma compose_services_follow_auth_witness :
  let w' := (generateDockerFiles no_throw api_config empty_world).2 in
  dockerCompose (features api_config) = true
  ∧ generateDockerFiles no_throw api_config empty_world = (Val true, w')
  ∧ ∃ compose,
      fs w' !! ["docker-compose.yml"] = Some (File (Json compose))
      ∧ js_keys (js_get "services" compose) = ["app"; "redis"]
      ∧ js_get "depends_on" (js_get "app" (js_get "services" compose))
          = JArr [JStr "redis"].
Proof.
  intros w'.
  assert (H1 : dockerCompose (features api_config) = true) by reflexivity.
  assert (H2 : generateDockerFiles no_throw api_config empty_world = (Val true, w')).
  { apply (with_final_world (generateDockerFiles no_throw api_config empty_world) (Val true)).
    vm_compute. reflexivity. }
  split; [exact H1 |]. split; [exact H2 |].
  destruct (compose_services_follow_auth no_throw api_config empty_world w' H1 H2)
    as (compose & Hfile & Hauth & _).
  exists compose. split; [exact Hfile |]. exact (Hauth eq_refl).
Defined.

Lemma resolved_ci_never_gitlab_witness :
  let config := resolve (Some "my-api") minimal_answers in
  let w' := (generateCIFiles no_throw config empty_world).2 in
  ci (features config) ≠ none
  ∧ generateCIFiles no_throw config empty_world = (Val true, w')
  ∧ ci (features config) = github
  ∧ trace w' = [ Mkdir [".github"; "workflows"];
                 WriteFile [".github"; "workflows"; "ci.yml"]
                   (Text (ciWorkflow +:+ dockerJob config)) ].
Proof.
  intros config w'.
  assert (H1 : ci (features config) ≠ none) by discriminate.
  assert (H2 : generateCIFiles no_throw config empty_world = (Val true, w')).
  { apply (with_final_world (generateCIFiles no_throw config empty_world) (Val true)).
    vm_compute. reflexivity. }
  split; [exact H1 |]. split; [exact H2 |].
  destruct (proj2 (resolved_ci_never_gitlab no_throw (Some "my-api") minimal_answers
                     empty_world w') H1 H2) as (Hgh & Htrace & _).
  split; [exact Hgh | exact Htrace].
Defined.

(** ** The project name *)

Lemma validate_accepted_iff (value : string) :
  validate value = Accepted ↔ name_pattern_test value = true.
Proof.
  unfold validate, name_pattern_test.
  destruct value as [| c rest]; simpl; [split; discriminate |].
  destruct (in_class c && forallb in_class (list_ascii_of_string rest));
    simpl; split; (reflexivity || discriminate).
Qed.

(** A name given at the prompt was accepted by [validate], and it is the
    resolved name when no usable name came from the command line. *)
Lemma prompted_name_accepted (projectName : option string) (user : User)
    (answers : Answers) (nm : string) :
  prompts projectName user = Some answers →
  a_name answers = Some nm →
  validate nm = Accepted ∧ name (resolve projectName answers) = Some nm.
Proof.
  unfold prompts, ask_name. intros Hp Hnm.
  destruct (truthy_string projectName) eqn:Ht; simpl in Hp.
  - destruct (gives_up user); [discriminate |]. injection Hp as <-. discriminate.
  - destruct (find _ (submitted <$> typed_names user)) as [v |] eqn:Hfind;
      [| discriminate].
    destruct (gives_up user); [discriminate |].
    injection Hp as <-. simpl in Hnm. injection Hnm as ->.
    apply find_some in Hfind as [_ Hok]. split.
    + by destruct (validate nm).
    + unfold resolve, js_or. simpl. by rewrite Ht.
Qed.

(** C6, at the failing input: [validate] rejects [My App] and [my app] and
    accepts [my-api_2], but it is only the name prompt that calls it.  A
    name given on the command line makes [promptForConfig] leave the name
    question out, and the name is resolved as it was typed: with [My App]
    as the argument the run goes through all nine steps and ends
    normally, having created the project directory. *)
Theorem cli_name_bypasses_validation :
  validate "My App"
    = Rejected "Project name can only contain lowercase letters, numbers, hyphens, and underscores"
  ∧ validate "my app"
    = Rejected "Project name can only contain lowercase letters, numbers, hyphens, and underscores"
  ∧ validate "my-api_2" = Accepted
  ∧ validate "" = Rejected "Project name is required"
  ∧ (∀ user, ask_name (Some "My App") user = Some None)
  ∧ (∀ answers, name (resolve (Some "My App") answers) = Some "My App")
  ∧ (main no_throw sample_absolute sample_templates blank ["My App"] api_user empty_world).1 = Val tt
  ∧ calls (main no_throw sample_absolute sample_templates blank ["My App"] api_user empty_world).2
      = step_names
  ∧ fs (main no_throw sample_absolute sample_templates blank ["My App"] api_user empty_world).2 !! []
      = Some Dir.
Proof.
  split; [reflexivity |]. split; [reflexivity |]. split; [reflexivity |].
  split; [reflexivity |]. split; [reflexivity |]. split; [reflexivity |].
  split; [vm_compute; reflexivity |]. split; vm_compute; reflexivity.
Qed.


(** * Further properties *)

(** Settles a closed decidable statement by evaluating its decision. *)
Ltac decide_now := refine (bool_decide_unpack _ _); vm_compute; exact I.

(** ** The name check *)

Lemma in_class_name_characters (c : ascii) :
  in_class c = bool_decide (c ∈ name_characters).
Proof.
  destruct c as [b0 b1 b2 b3 b4 b5 b6 b7].
  destruct b0, b1, b2, b3, b4, b5, b6, b7; vm_compute; reflexivity.
Qed.

(** X1: [validate] accepts a text exactly when it is not empty and each of
    its characters is one of the thirty-eight characters
    [abcdefghijklmnopqrstuvwxyz0123456789-_]: an upper-case letter, a
    blank, a dot, a slash or any other character anywhere in the text
    makes it refuse.  The "required" message is for the empty text and for
    nothing else, and every other refused text gets the message about the
    allowed characters. *)
Theorem validate_accepts_exactly_identifiers (value : string) :
  (validate value = Accepted
   ↔ value ≠ "" ∧ Forall (fun c => c ∈ name_characters) (list_ascii_of_string value))
  ∧ (validate value = Rejected "Project name is required" ↔ value = "")
  ∧ (value ≠ "" →
     Exists (fun c => c ∉ name_characters) (list_ascii_of_string value) →
     validate value
     = Rejected "Project name can only contain lowercase letters, numbers, hyphens, and underscores")
  ∧ (∀ (before after : string) (c : ascii),
       c ∉ name_characters →
       validate (before +:+ String c after) ≠ Accepted).
Proof.
  assert (Hclass : ∀ cs, forallb in_class cs = true
                         ↔ Forall (fun c => c ∈ name_characters) cs).
  { intros cs. rewrite forallb_forall, <- List.Forall_forall.
    apply Forall_iff. intros c. rewrite in_class_name_characters.
    apply bool_decide_eq_true. }
  assert (Hacc : ∀ v, validate v = Accepted
                      ↔ v ≠ "" ∧ Forall (fun c => c ∈ name_characters)
                                        (list_ascii_of_string v)).
  { intros v. rewrite validate_accepted_iff. unfold name_pattern_test.
    destruct v as [| c rest]; [split; [discriminate | by intros [? _]] |].
    cbn [list_ascii_of_string]. rewrite Hclass.
    split; [by intros H | by intros [_ H]]. }
  assert (Hlist : ∀ a b, list_ascii_of_string (a +:+ b)
                         = list_ascii_of_string a ++ list_ascii_of_string b).
  { intros a b. induction a as [| x a IH]; [reflexivity |].
    change (String x a +:+ b) with (String x (a +:+ b)).
    cbn [list_ascii_of_string app]. by rewrite IH. }
  split; [exact (Hacc value) |]. split; [| split].
  - unfold validate. destruct value as [| c rest]; [done |].
    cbn [String.eqb]. split; [| discriminate].
    by destruct (negb (name_pattern_test (String c rest))).
  - intros Hne Hbad. unfold validate.
    destruct value as [| c rest]; [done |]. cbn [String.eqb].
    destruct (name_pattern_test (String c rest)) eqn:Hp; [| reflexivity].
    exfalso. apply validate_accepted_iff, Hacc in Hp as [_ Hall].
    apply Exists_exists in Hbad as (x & Hx & Hnot).
    apply Hnot. exact (proj1 (Forall_forall _ _) Hall x Hx).
  - intros before after c Hc Hok. apply Hacc in Hok as [_ Hall].
    rewrite Hlist in Hall. apply Forall_app in Hall as [_ Hall].
    cbn [list_ascii_of_string] in Hall. apply Forall_cons in Hall as [Hin _].
    by apply Hc.
Qed.

Lemma validate_accepts_exactly_identifiers_witness :
  validate "My-api" ≠ Accepted
  ∧ validate "my;api" ≠ Accepted
  ∧ validate "my-api_2" = Accepted.
Proof.
  split; [| split].
  - refine (proj2 (proj2 (proj2 (validate_accepts_exactly_identifiers "")))
              "" "y-api" "M"%char _).
    intros H. apply (bool_decide_pack _) in H. vm_compute in H. exact H.
  - refine (proj2 (proj2 (proj2 (validate_accepts_exactly_identifiers "")))
              "my" "api" ";"%char _).
    intros H. apply (bool_decide_pack _) in H. vm_compute in H. exact H.
  - refine (proj2 (proj1 (validate_accepts_exactly_identifiers "my-api_2")) _).
    split; [discriminate |]. decide_now.
Defined.

(** ** Feature parsing *)

Lemma includes_elem_of (sel : list string) (tok : string) :
  includes sel tok = true ↔ tok ∈ sel.
Proof.
  unfold includes. rewrite existsb_exists. split.
  - intros (x & Hin & Heq). apply String.eqb_eq in Heq as ->.
    by apply list_elem_of_In.
  - intros Hin. exists tok. split; [by apply list_elem_of_In | apply String.eqb_refl].
Qed.

Lemma includes_ext (sel sel' : list string) (tok : string) :
  (tok ∈ sel ↔ tok ∈ sel') → includes sel tok = includes sel' tok.
Proof.
  intros H. apply eq_true_iff_eq. by rewrite !includes_elem_of.
Qed.

(** X2: with the [minimal] template the resolved features depend only on
    which of the six offered tokens are in the selection: the order of the
    selection, repeated tokens and tokens that are not offered change
    nothing; and without a selection all features are off. *)
Theorem minimal_features_depend_on_token_set (projectName : option string)
    (answers : Answers) (sel sel' : list string) :
  a_template answers = minimal →
  (∀ tok, tok ∈ feature_tokens → (tok ∈ sel ↔ tok ∈ sel')) →
  features (resolve projectName (with_additionalFeatures (Some sel) answers))
  = features (resolve projectName (with_additionalFeatures (Some sel') answers))
  ∧ features (resolve projectName (with_additionalFeatures None answers))
    = initial_features.
Proof.
  intros Hmin Hsame. cbn [features resolve].
  rewrite !parse_features_minimal by exact Hmin. cbn [a_additionalFeatures with_additionalFeatures].
  split; [| reflexivity]. unfold membership_features.
  rewrite (includes_ext sel sel' "docker"), (includes_ext sel sel' "dockerCompose"),
    (includes_ext sel sel' "ci-github"), (includes_ext sel sel' "openapi"),
    (includes_ext sel sel' "auth"), (includes_ext sel sel' "observability");
    try reflexivity; apply Hsame; unfold feature_tokens;
    repeat first [apply list_elem_of_here | apply list_elem_of_further].
Qed.

Lemma minimal_features_depend_on_token_set_witness :
  let answers := mkAnswers (Some "my-api") minimal None npm true (Some true) in
  features (resolve None (with_additionalFeatures
                            (Some ["auth"; "ci-gitlab"; "docker"; "auth"]) answers))
  = features (resolve None (with_additionalFeatures (Some ["docker"; "auth"]) answers)).
Proof.
  intros answers.
  refine (proj1 (minimal_features_depend_on_token_set None answers
                   ["auth"; "ci-gitlab"; "docker"; "auth"] ["docker"; "auth"]
                   eq_refl _)).
  intros tok Htok. unfold feature_tokens in Htok.
  repeat (apply elem_of_cons in Htok as [-> | Htok]; [decide_now |]).
  by apply elem_of_nil in Htok.
Defined.

(** ** [package.json] and [.env.example] *)

Ltac each_config config :=
  destruct config as [nm tier [d dc c o a ob] pm g gc i];
  cbn [features docker dockerCompose ci openapi auth observability name];
  destruct d, dc, a, o, ob.

(** X3: the runtime and the development dependencies of the generated
    manifest follow the features: the framework and the two logging
    packages are always there; the session and token packages come with
    [auth], the documentation server with [openapi], the tracing and
    metrics packages with [observability]; no package is listed twice and
    there is no other runtime dependency. *)
Theorem packageJson_dependencies_follow_features (config : ProjectConfig) :
  let deps := js_keys (js_get "dependencies" (packageJson config)) in
  let dev := js_keys (js_get "devDependencies" (packageJson config)) in
  NoDup deps ∧ NoDup dev
  ∧ Forall (fun d => d ∈ deps) ["filamentjs"; "pino"; "pino-pretty"]
  ∧ Forall (fun d => d ∈ deps ↔ auth (features config) = true)
           ["redis"; "jsonwebtoken"]
  ∧ ("@types/jsonwebtoken" ∈ dev ↔ auth (features config) = true)
  ∧ ("swagger-ui-express" ∈ deps ↔ openapi (features config) = true)
  ∧ ("@types/swagger-ui-express" ∈ dev ↔ openapi (features config) = true)
  ∧ Forall (fun d => d ∈ deps ↔ observability (features config) = true)
           ["@opentelemetry/api"; "@opentelemetry/sdk-node"; "prom-client"]
  ∧ length deps = 3 + (if auth (features config) then 2 else 0)
                    + (if openapi (features config) then 1 else 0)
                    + (if observability (features config) then 3 else 0).
Proof.
  cbv zeta. each_config config; decide_now.
Qed.

(** X4: the scripts of the generated manifest: the eleven fixed ones are
    always there; [docker:build] and [docker:run], which carry the project
    name, are there exactly with [docker], and [docker:up] and
    [docker:down] exactly with [dockerCompose]. *)
Theorem packageJson_scripts_follow_docker (config : ProjectConfig) :
  let scripts := js_get "scripts" (packageJson config) in
  Forall (fun k => k ∈ js_keys scripts)
         [ "dev"; "build"; "start"; "test"; "test:watch"; "lint"; "lint:fix";
           "format"; "type-check"; "prepare"; "depcheck" ]
  ∧ NoDup (js_keys scripts)
  ∧ js_get "docker:build" scripts
      = (if docker (features config)
         then JStr ("docker build -t " +:+ show_name (name config) +:+ " .")
         else JUndefined)
  ∧ js_get "docker:run" scripts
      = (if docker (features config)
         then JStr ("docker run -p 3000:3000 " +:+ show_name (name config))
         else JUndefined)
  ∧ js_get "docker:up" scripts
      = (if dockerCompose (features config) then JStr "docker-compose up" else JUndefined)
  ∧ js_get "docker:down" scripts
      = (if dockerCompose (features config) then JStr "docker-compose down" else JUndefined)
  ∧ length (js_keys scripts)
      = 11 + (if docker (features config) then 2 else 0)
           + (if dockerCompose (features config) then 2 else 0).
Proof.
  cbv zeta. each_config config;
    (split; [decide_now |]); (split; [decide_now |]);
    repeat split; reflexivity.
Qed.

(** X5: the environment template always has the server and logging settings;
    it has the token and Redis settings exactly with [auth] and the
    tracing endpoint exactly with [observability]. *)
Theorem envExample_follows_features (config : ProjectConfig) :
  contains "PORT=3000" (envExample config) = true
  ∧ contains "NODE_ENV=development" (envExample config) = true
  ∧ contains "LOG_LEVEL=info" (envExample config) = true
  ∧ contains "JWT_SECRET=" (envExample config) = auth (features config)
  ∧ contains "JWT_EXPIRY=" (envExample config) = auth (features config)
  ∧ contains "REDIS_URL=" (envExample config) = auth (features config)
  ∧ contains "OTEL_EXPORTER_OTLP_ENDPOINT=" (envExample config)
      = observability (features config).
Proof.
  each_config config; vm_compute; repeat split.
Qed.

(** X6: what needs Redis comes together: the [redis] package of the manifest,
    the [REDIS_URL] line of the environment template, the [redis] service
    of the compose definition and the [REDIS_URL] entry of the app
    service's environment are all there with [auth] and all missing
    without it. *)
Theorem redis_artifacts_agree (config : ProjectConfig) :
  ("redis" ∈ js_keys (js_get "dependencies" (packageJson config))
   ↔ auth (features config) = true)
  ∧ (contains "REDIS_URL=" (envExample config) = true ↔ auth (features config) = true)
  ∧ ("redis" ∈ js_keys (js_get "services" (dockerCompose_object config))
     ↔ auth (features config) = true)
  ∧ js_get "environment" (js_get "app" (js_get "services" (dockerCompose_object config)))
      = JArr ([JStr "NODE_ENV=production"; JStr "LOG_LEVEL=info"]
              ++ if auth (features config)
                 then [JStr "REDIS_URL=redis://redis:6379"] else [])
  ∧ (js_get "volumes" (dockerCompose_object config) = JUndefined
     ↔ auth (features config) = false).
Proof.
  each_config config;
    (split; [decide_now |]); (split; [decide_now |]); (split; [decide_now |]);
    (split; [reflexivity |]); vm_compute; split; (reflexivity || discriminate).
Qed.

(** ** The blank-line clean-up of the guides *)

Lemma prefix_newline_cons (p : string) (c : ascii) (s : string) :
  String.prefix (String newline p) (String c s)
  = Ascii.eqb c newline && String.prefix p s.
Proof.
  cbn [String.prefix].
  destruct (ascii_dec newline c) as [<- | Hne]; [by rewrite Ascii.eqb_refl |].
  by destruct (Ascii.eqb_spec c newline) as [-> | _].
Qed.

Lemma prefix_three_newlines (s : string) :
  String.prefix three_newlines s = Nat.leb 3 (leading_newlines s).
Proof.
  change three_newlines with (String newline (String newline (String newline ""))).
  destruct s as [| c1 s]; [reflexivity |].
  rewrite prefix_newline_cons. cbn [leading_newlines].
  destruct (Ascii.eqb c1 newline); [| reflexivity].
  destruct s as [| c2 s]; [reflexivity |].
  rewrite prefix_newline_cons. cbn [leading_newlines].
  destruct (Ascii.eqb c2 newline); [| reflexivity].
  destruct s as [| c3 s]; [reflexivity |].
  rewrite prefix_newline_cons. cbn [leading_newlines].
  destruct (Ascii.eqb c3 newline); [| reflexivity].
  by destruct s.
Qed.

Lemma contains_cons (needle : string) (c : ascii) (s : string) :
  contains needle (String c s) = String.prefix needle (String c s) || contains needle s.
Proof. reflexivity. Qed.

Lemma contains_prefix_false (needle s : string) :
  contains needle s = false → String.prefix needle s = false.
Proof.
  destruct s as [| c s]; cbn [contains]; intros H; by apply orb_false_iff in H as [? _].
Qed.

Lemma collapse_from_cons (r : nat) (c : ascii) (s : string) :
  collapse_from r (String c s)
  = if Ascii.eqb c newline then
      if Nat.ltb r 2 then String c (collapse_from (S r) s) else collapse_from r s
    else String c (collapse_from 0 s).
Proof. reflexivity. Qed.

Lemma leading_newlines_cons (c : ascii) (s : string) :
  leading_newlines (String c s)
  = if Ascii.eqb c newline then S (leading_newlines s) else 0.
Proof. reflexivity. Qed.

Lemma collapse_from_leading (r : nat) (s : string) :
  leading_newlines (collapse_from r s) + Nat.min r 2 ≤ 2.
Proof.
  revert r. induction s as [| c s IH]; intros r; [cbn; lia |].
  rewrite collapse_from_cons. destruct (Ascii.eqb c newline) eqn:Ec.
  - destruct (Nat.ltb_spec r 2) as [Hr | Hr].
    + rewrite leading_newlines_cons, Ec. specialize (IH (S r)). lia.
    + specialize (IH r). lia.
  - rewrite leading_newlines_cons, Ec. lia.
Qed.

Lemma collapse_from_no_run (r : nat) (s : string) :
  contains three_newlines (collapse_from r s) = false.
Proof.
  revert r. induction s as [| c s IH]; intros r; [reflexivity |].
  rewrite collapse_from_cons. destruct (Ascii.eqb c newline) eqn:Ec.
  - destruct (Nat.ltb_spec r 2) as [Hr | Hr]; [| apply IH].
    rewrite contains_cons, IH, orb_false_r, prefix_three_newlines.
    rewrite leading_newlines_cons, Ec.
    pose proof (collapse_from_leading (S r) s). apply Nat.leb_gt. lia.
  - rewrite contains_cons, IH, orb_false_r, prefix_three_newlines.
    by rewrite leading_newlines_cons, Ec.
Qed.

Lemma collapse_from_fixes (r : nat) (s : string) :
  leading_newlines s + Nat.min r 2 ≤ 2 →
  contains three_newlines s = false →
  collapse_from r s = s.
Proof.
  revert r. induction s as [| c s IH]; intros r Hlead Hno; [reflexivity |].
  rewrite contains_cons in Hno. apply orb_false_iff in Hno as [_ Hno].
  rewrite collapse_from_cons. rewrite leading_newlines_cons in Hlead.
  destruct (Ascii.eqb c newline) eqn:Ec.
  - destruct (Nat.ltb_spec r 2) as [Hr | Hr]; [| lia].
    f_equal. apply IH; [lia | exact Hno].
  - f_equal. apply IH; [| exact Hno].
    apply contains_prefix_false in Hno. rewrite prefix_three_newlines in Hno.
    apply Nat.leb_gt in Hno. lia.
Qed.

Lemma without_newlines_cons (c : ascii) (s : string) :
  without_newlines (String c s)
  = if Ascii.eqb c newline then without_newlines s else String c (without_newlines s).
Proof. reflexivity. Qed.

Lemma collapse_from_without_newlines (r : nat) (s : string) :
  without_newlines (collapse_from r s) = without_newlines s.
Proof.
  revert r. induction s as [| c s IH]; intros r; [reflexivity |].
  rewrite collapse_from_cons, (without_newlines_cons c s).
  destruct (Ascii.eqb c newline) eqn:Ec.
  - destruct (Nat.ltb r 2); [| apply IH]. rewrite without_newlines_cons, Ec. apply IH.
  - by rewrite without_newlines_cons, Ec, IH.
Qed.

Lemma collapse_from_length (r : nat) (s : string) :
  String.length (collapse_from r s) ≤ String.length s.
Proof.
  revert r. induction s as [| c s IH]; intros r; [reflexivity |].
  rewrite collapse_from_cons. cbn [String.length].
  destruct (Ascii.eqb c newline).
  - destruct (Nat.ltb r 2); cbn [String.length];
      [specialize (IH (S r)) | specialize (IH r)]; lia.
  - cbn [String.length]. specialize (IH 0). lia.
Qed.

Lemma collapse_from_newlines (r k : nat) (b : ascii) (t : string) :
  b ≠ newline →
  collapse_from r (newlines k +:+ String b t)
  = newlines (Nat.min k (2 - r)) +:+ String b (collapse_from 0 t).
Proof.
  intros Hb. revert r. induction k as [| k IH]; intros r.
  - change (collapse_from r (String b t) = String b (collapse_from 0 t)).
    rewrite collapse_from_cons. by destruct (Ascii.eqb_spec b newline).
  - change (newlines (S k) +:+ String b t)
      with (String newline (newlines k +:+ String b t)).
    rewrite collapse_from_cons, Ascii.eqb_refl, !IH.
    destruct (Nat.ltb_spec r 2) as [Hr | Hr].
    + replace (Nat.min (S k) (2 - r)) with (S (Nat.min k (2 - S r))) by lia.
      reflexivity.
    + replace (2 - r) with 0 by lia. by rewrite !Nat.min_0_r.
Qed.

(** X7: the clean-up [replace(/\n{2,}/g, '\n\n')] of the two guides: a run of
    newlines between two other characters is cut down to two newlines
    when it is longer and kept when it is not; the result has no three
    newlines in a row and is the text itself exactly when the text had
    none; cleaning twice is cleaning once; nothing but newlines is
    removed.  So the generated README has no two blank lines in a row,
    whatever the name and the features. *)
Theorem collapse_newlines_keeps_two (s : string) :
  contains three_newlines (collapse_newlines s) = false
  ∧ (collapse_newlines s = s ↔ contains three_newlines s = false)
  ∧ collapse_newlines (collapse_newlines s) = collapse_newlines s
  ∧ without_newlines (collapse_newlines s) = without_newlines s
  ∧ String.length (collapse_newlines s) ≤ String.length s
  ∧ (∀ a b k t,
       a ≠ newline → b ≠ newline →
       collapse_newlines (String a (newlines k +:+ String b t))
       = String a (newlines (Nat.min k 2) +:+ String b (collapse_newlines t)))
  ∧ ∀ config, contains three_newlines (readme config) = false.
Proof.
  unfold collapse_newlines, readme.
  assert (Hfix : ∀ t, contains three_newlines t = false → collapse_from 0 t = t).
  { intros t Hno. apply collapse_from_fixes; [| exact Hno].
    apply contains_prefix_false in Hno. rewrite prefix_three_newlines in Hno.
    apply Nat.leb_gt in Hno. cbn [Nat.min]. lia. }
  split; [apply collapse_from_no_run |]. split.
  { split; [intros <-; apply collapse_from_no_run | apply Hfix]. }
  split; [apply Hfix, collapse_from_no_run |].
  split; [apply collapse_from_without_newlines |].
  split; [apply collapse_from_length |]. split.
  - intros a b k t Ha Hb. rewrite collapse_from_cons.
    destruct (Ascii.eqb_spec a newline); [done |].
    by rewrite collapse_from_newlines.
  - intros config. apply collapse_from_no_run.
Qed.

Lemma collapse_newlines_keeps_two_witness :
  collapse_newlines ("a" +:+ newlines 5 +:+ "b" +:+ newlines 1 +:+ "c")
  = "a" +:+ newlines 2 +:+ "b" +:+ newlines 1 +:+ "c".
Proof.
  destruct (collapse_newlines_keeps_two "") as (_ & _ & _ & _ & _ & Hrun & _).
  exact (Hrun "a"%char "b"%char 5 (newlines 1 +:+ "c")
           ltac:(discriminate) ltac:(discriminate)).
Defined.

(** ** Lookups in the file-system model *)

Lemma mkdir_p_lookup (p q : list string) (m : gmap (list string) Node) :
  mkdir_p p m !! q
  = match m !! q with
    | Some x => Some x
    | None => if bool_decide (q ∈ prefixes p) then Some Dir else None
    end.
Proof.
  unfold mkdir_p. generalize (prefixes p) as l.
  induction l as [| x l IH]; cbn [foldr].
  - destruct (m !! q); [reflexivity |].
    rewrite bool_decide_eq_false_2; [reflexivity | apply not_elem_of_nil].
  - destruct (foldr _ m l !! x) eqn:Ex.
    + rewrite IH. destruct (m !! q) eqn:Eq; [reflexivity |].
      destruct (decide (q ∈ l)) as [Hin | Hnin].
      * rewrite !bool_decide_eq_true_2; [reflexivity | by right | exact Hin].
      * rewrite !bool_decide_eq_false_2; [reflexivity | | exact Hnin].
        intros [Heq | Hin]%elem_of_cons; [| done]. subst x.
        rewrite IH in Ex. rewrite bool_decide_eq_false_2 in Ex by exact Hnin.
        discriminate.
    + destruct (decide (x = q)) as [-> | Hne].
      * rewrite lookup_insert_eq. rewrite IH in Ex.
        destruct (m !! q); [discriminate |].
        rewrite bool_decide_eq_true_2; [reflexivity | by left].
      * rewrite lookup_insert_ne by exact Hne. rewrite IH.
        destruct (m !! q); [reflexivity |].
        rewrite (bool_decide_ext (q ∈ l) (q ∈ x :: l)); [reflexivity |].
        rewrite elem_of_cons. split; [by right | by intros [? | ?]].
Qed.




(** ** More on the single steps *)

(** Runs a computation symbolically in the environment [throws], with a
    case for every I/O call that may raise. *)
Ltac run_in throws :=
  repeat first
    [ progress cbn [fs trace console calls]
    | rewrite bind_unfold
    | rewrite try_catch_unfold
    | match goal with
      | |- context [perform throws ?e ?w] =>
          let E := fresh "E" in
          destruct (throws (trace w) e) eqn:E;
          [ rewrite (perform_throw throws e w E) | rewrite (perform_ok throws e w E) ]
      end
    | progress unfold say, enter, when, exists_sync, mret, IO_ret, ret
    | progress cbv beta iota ].

(** Reads a path in a file system built by the effects of a run. *)
Ltac read_fs :=
  cbn [fs apply_effect];
  repeat first
    [ rewrite lookup_insert_eq
    | rewrite lookup_insert_ne by (intros ?; discriminate)
    | rewrite mkdir_p_lookup ].

Lemma skeleton_dirs_closed :
  Forall (fun q => Forall (fun p => p ∈ skeleton_dirs) (prefixes q)) skeleton_dirs.
Proof. decide_now. Qed.

Lemma outside_skeleton (p q : list string) :
  q ∈ skeleton_dirs → p ∉ skeleton_dirs → p ∉ prefixes q.
Proof.
  intros Hq Hnin Hp. apply Hnin.
  pose proof (proj1 (Forall_forall _ _) skeleton_dirs_closed q Hq) as Hpre.
  exact (proj1 (Forall_forall _ _) Hpre p Hp).
Qed.

Section StepProperties.
Variable throws : list Effect -> Effect -> bool.
Variable absolute : string -> string.
Variable templates : Template -> option (string -> option (list (list string * Node))).
Variable boilerplate : list string -> ProjectConfig -> Content.

(** Rules out the cases where a call other than [chmod] raised. *)
Ltac only_chmod H :=
  try (exfalso;
       match goal with
       | E : throws _ _ = true |- _ => apply H in E; discriminate E
       end).

Lemma createProjectStructure_lookup (config : ProjectConfig)
    (w w' : World) (p : list string) :
  createProjectStructure throws config w = (Val true, w') →
  fs w' !! p
  = match fs w !! p with
    | Some x => Some x
    | None => if bool_decide (p ∈ skeleton_dirs) then Some Dir else None
    end.
Proof.
  unfold createProjectStructure. run_in throws; intros H; simplify_eq.
  cbn [fs apply_effect]. rewrite !mkdir_p_lookup.
  destruct (fs w !! p); [reflexivity |].
  destruct (decide (p ∈ skeleton_dirs)) as [Hin | Hnin].
  - rewrite (bool_decide_eq_true_2 _ Hin). unfold skeleton_dirs in Hin.
    repeat (apply elem_of_cons in Hin as [-> | Hin]; [vm_compute; reflexivity |]).
    by apply elem_of_nil in Hin.
  - rewrite (bool_decide_eq_false_2 _ Hnin).
    repeat match goal with
           | |- context [bool_decide (p ∈ prefixes ?q)] =>
               rewrite (bool_decide_eq_false_2 (p ∈ prefixes q))
                 by (apply outside_skeleton; [decide_now | exact Hnin])
           end.
    reflexivity.
Qed.

Lemma createProjectStructure_unraised (config : ProjectConfig) (w w' : World) :
  createProjectStructure throws config w = (Val true, w') →
  Forall (fun q => ∃ tr, throws tr (Mkdir q) = false) skeleton_calls.
Proof.
  unfold createProjectStructure, skeleton_calls.
  run_in throws; intros H; simplify_eq.
  repeat apply List.Forall_cons; try apply List.Forall_nil; eexists; eassumption.
Qed.

Lemma skeleton_dirs_called :
  Forall (fun p => Exists (fun q => p ∈ prefixes q) skeleton_calls) skeleton_dirs.
Proof. decide_now. Qed.

(** X8: a regular file in the way makes [mkdirSync] raise.  So when
    [createProjectStructure] succeeds, the project directory, [src] with
    its five subdirectories and [tests] with its two are all directories;
    no entry that was there has been replaced, and nothing else is new. *)
Theorem createProjectStructure_makes_skeleton (config : ProjectConfig)
    (w w' : World) :
  (∀ tr p, file_in_the_way (fs w) p = true → throws tr (Mkdir p) = true) →
  createProjectStructure throws config w = (Val true, w') →
  Forall (fun p => fs w' !! p = Some Dir) skeleton_dirs
  ∧ (∀ p x, fs w !! p = Some x → fs w' !! p = Some x)
  ∧ (∀ p, p ∉ skeleton_dirs → fs w' !! p = fs w !! p).
Proof.
  intros Hrefused Hrun.
  assert (Hfree : ∀ p, p ∈ skeleton_dirs → is_file (fs w !! p) = false).
  { intros p Hp. destruct (is_file (fs w !! p)) eqn:Hfile; [| reflexivity].
    pose proof (proj1 (Forall_forall _ _) skeleton_dirs_called p Hp) as Hcalled.
    apply Exists_exists in Hcalled as (q & Hq & Hpre).
    destruct (proj1 (Forall_forall _ _)
                (createProjectStructure_unraised config w w' Hrun) q Hq)
      as (tr & Hgone).
    rewrite Hrefused in Hgone; [discriminate |].
    unfold file_in_the_way. apply existsb_exists. exists p.
    split; [by apply list_elem_of_In | exact Hfile]. }
  split; [| split].
  - apply Forall_forall. intros p Hp.
    rewrite (createProjectStructure_lookup config w w' p Hrun).
    specialize (Hfree p Hp). rewrite (bool_decide_eq_true_2 _ Hp).
    by destruct (fs w !! p) as [[| c] |].
  - intros p x Hx. rewrite (createProjectStructure_lookup config w w' p Hrun).
    by rewrite Hx.
  - intros p Hp. rewrite (createProjectStructure_lookup config w w' p Hrun).
    rewrite (bool_decide_eq_false_2 _ Hp). by destruct (fs w !! p).
Qed.

(** X9: a failing [chmod] is ignored: when no call but [chmod] raises,
    [generateConfigFiles] succeeds, and its nine files and the hook
    directory are there with the generated contents. *)
Theorem generateConfigFiles_ignores_chmod_failure (config : ProjectConfig)
    (w : World) :
  (∀ tr e, throws tr e = true → is_chmod e = true) →
  ∃ w', generateConfigFiles throws boilerplate config w = (Val true, w')
        ∧ Forall (fun p => fs w' !! p = Some (File (boilerplate p config))) config_files
        ∧ is_Some (fs w' !! [".husky"])
        ∧ Forall (fun e => is_chmod e = false ∨ e ∈ [ChmodX [".husky"; "pre-commit"];
                                                       ChmodX [".husky"; "commit-msg"]])
                 (drop (length (trace w)) (trace w')).
Proof.
  intros Honly. unfold generateConfigFiles, write_boilerplate, config_files.
  run_in throws; only_chmod Honly;
    (eexists; split; [reflexivity |]); cbn [fs trace];
    (split; [repeat apply List.Forall_cons; try apply List.Forall_nil;
             read_fs; reflexivity |]);
    (split; [read_fs; by destruct (fs w !! [".husky"]) |]);
    rewrite <- ?app_assoc, drop_app_length;
    repeat apply List.Forall_cons; try apply List.Forall_nil;
    first [ by left | right; repeat first [apply list_elem_of_here | apply list_elem_of_further] ].
Qed.

(** X10: the git step runs [git init], [git add .] and, when [gitCommit] is
    true, [git commit], in this order and stopping at the first that
    fails; an absent [gitCommit] means no commit.  These commands are the
    only I/O calls it makes, and it reports success exactly when all of
    them ran. *)
Theorem initializeGit_runs_commands_in_order (config : ProjectConfig) (w : World) :
  git config = true →
  ∃ n, trace (initializeGit throws config w).2 = trace w ++ take n (git_commands config)
       ∧ (((initializeGit throws config w).1 = Val true
           ∧ n = length (git_commands config))
          ∨ ((initializeGit throws config w).1 = Val false
             ∧ n < length (git_commands config)
             ∧ (∀ e, git_commands config !! n = Some e →
                     throws (trace w ++ take n (git_commands config)) e = true))).
Proof.
  intros Hgit. unfold initializeGit, git_commands. rewrite Hgit. cbn [negb].
  destruct (truthy_bool (gitCommit config)); run_in throws;
    cbn [fst snd trace app] in *.
  all: first
    [ exists 0; cbn [take lookup list_lookup length]; rewrite app_nil_r;
      split; [reflexivity |]; right;
      split; [reflexivity |]; split; [lia |]; by intros e [= <-]
    | exists 1; cbn [take lookup list_lookup length];
      split; [reflexivity |]; right;
      split; [reflexivity |]; split; [lia |]; by intros e [= <-]
    | exists 2; cbn [take lookup list_lookup length];
      split; [by rewrite <- app_assoc |]; right;
      split; [reflexivity |]; split; [lia |];
      intros e [= <-]; by rewrite <- app_assoc in *
    | exists 2; cbn [take lookup list_lookup length];
      split; [by rewrite <- app_assoc |]; left; split; reflexivity
    | exists 3; cbn [take lookup list_lookup length];
      split; [by rewrite <- !app_assoc |]; left; split; reflexivity ].
Qed.

(** ** The template copy *)



(** X11: when the template directory is missing, or holds neither [src] nor
    [tests], the copy step still reports success: it makes no I/O call
    and leaves the empty skeleton as it is. *)
Theorem copyTemplateFiles_without_template (config : ProjectConfig) (w : World) :
  (∀ dir, templates (template config) = Some dir →
          dir "src" = None ∧ dir "tests" = None) →
  copyTemplateFiles throws absolute templates config w =
    (Val true,
     mkWorld (fs w) (trace w)
       (console w ++ [ SpinnerStart "Copying template files...";
                       SpinnerSucceed "Copied template files" ])
       (calls w ++ [CopyTemplateFiles])).
Proof.
  intros Hmissing. unfold copyTemplateFiles, copy_subtree.
  destruct (templates (template config)) as [dir |].
  - destruct (Hmissing dir eq_refl) as [-> ->].
    run_in throws. by rewrite <- app_assoc.
  - run_in throws. by rewrite <- app_assoc.
Qed.




End StepProperties.

(** ** More on the whole run *)

(** Opens the nine steps and the helpers of the copy step. *)
Ltac open_steps :=
  unfold steps, createProjectStructure, copyTemplateFiles, generatePackageJson,
    generateConfigFiles, generateDockerFiles, generateCIFiles, generateREADME,
    installDependencies, initializeGit, copy_subtree, rm_rf_unquoted,
    write_boilerplate.

(** Splits on the tests a step makes before it calls out. *)
Ltac split_tests :=
  repeat match goal with
         | |- context [match ?o with Some _ => _ | None => _ end] => destruct o
         | |- context [if ?b then _ else _] => destruct b
         end.

Lemma run_steps_all_succeed (todo : list (IO bool)) (w : World) :
  Forall (fun step => ∀ w0, ∃ w1, step w0 = (Val true, w1)) todo →
  ∃ w', run_steps todo w = (Val tt, w').
Proof.
  intros Hall. revert w. induction Hall as [| step todo Hstep _ IH]; intros w.
  - by exists w.
  - destruct (Hstep w) as (w1 & E). rewrite run_steps_cons, E. apply IH.
Qed.

Lemma run_steps_app_done_inv (done rest : list (IO bool)) (w w' : World) :
  run_steps (done ++ rest) w = (Val tt, w') →
  ∃ w1, run_steps done w = (Val tt, w1) ∧ run_steps rest w1 = (Val tt, w').
Proof.
  revert w. induction done as [| step done IH]; intros w Hrun.
  - by exists w.
  - change ((step :: done) ++ rest) with (step :: (done ++ rest)) in Hrun.
    apply run_steps_done_inv in Hrun as (w0 & Es & Hrun).
    destruct (IH _ Hrun) as (w1 & Hdone & Hrest). exists w1.
    split; [| exact Hrest]. by rewrite run_steps_cons, Es.
Qed.

Section RunProperties.
Variable throws : list Effect -> Effect -> bool.
Variable absolute : string -> string.
Variable templates : Template -> option (string -> option (list (list string * Node))).
Variable boilerplate : list string -> ProjectConfig -> Content.

Local Abbreviation all_steps := (steps throws absolute templates boilerplate).

Lemma steps_succeed_unless_raised (config : ProjectConfig) :
  (∀ tr e, throws tr e = true → is_chmod e = true) →
  Forall (fun step => ∀ w0, ∃ w1, step w0 = (Val true, w1)) (all_steps config).
Proof.
  intros Honly. open_steps.
  repeat apply List.Forall_cons; try apply List.Forall_nil; intros w0;
    split_tests; repeat (run_in throws; split_tests);
    try (exfalso;
         match goal with
         | E : throws _ _ = true |- _ => apply Honly in E; discriminate E
         end);
    eexists; reflexivity.
Qed.

(** X13: no step fails by itself: when no I/O call raises, or none but a
    [chmod], the run goes through all nine steps in order and ends
    normally, for every configuration and whatever the directory held. *)
Theorem pipeline_completes_unless_io_raises (config : ProjectConfig) (w : World) :
  (∀ tr e, throws tr e = true → is_chmod e = true) →
  ∃ w', run_steps (all_steps config) w = (Val tt, w')
        ∧ calls w' = calls w ++ step_names.
Proof.
  intros Honly.
  destruct (run_steps_all_succeed _ w (steps_succeed_unless_raised config Honly))
    as (w' & Hrun).
  exists w'. split; [exact Hrun |].
  eapply run_steps_done_calls; [apply steps_enter | exact Hrun].
Qed.

(** X14: every failure is announced: a step reports failure exactly when the
    lines it added to the console include a spinner failure message. *)
Theorem step_failure_is_announced (config : ProjectConfig) :
  Forall (fun step => ∀ w,
            (step w).1 = Val false
            ↔ existsb is_spinner_fail (new_lines w (step w).2) = true)
         (all_steps config).
Proof.
  open_steps.
  repeat apply List.Forall_cons; try apply List.Forall_nil; intros w;
    split_tests; repeat (run_in throws; split_tests);
    unfold new_lines; cbn [fst snd console];
    rewrite <- ?app_assoc, ?drop_app_length, ?drop_all;
    cbn; split; (reflexivity || discriminate).
Qed.

(** ** The generated file set *)

Lemma written_then_kept (p : list string) (node : Node)
    (done : list (IO bool)) (step : IO bool) (later : list (IO bool))
    (w w' : World) :
  (∀ w0 w1, step w0 = (Val true, w1) → fs w1 !! p = Some node) →
  Forall (respects (same_at p)) later →
  run_steps (done ++ step :: later) w = (Val tt, w') →
  fs w' !! p = Some node.
Proof.
  intros Hstep Hlater Hrun.
  apply run_steps_app_done_inv in Hrun as (w1 & _ & Hrun).
  apply run_steps_done_inv in Hrun as (w2 & Es & Hrun).
  rewrite (run_steps_done_respects (same_at p) later w2 w' Hlater Hrun).
  by apply (Hstep w1).
Qed.

Lemma written_or_kept (p : list string) (change : option Node → option Node)
    (done : list (IO bool)) (step : IO bool) (later : list (IO bool))
    (w w' : World) :
  (∀ w0 w1, step w0 = (Val true, w1) → fs w1 !! p = change (fs w0 !! p)) →
  Forall (respects (same_at p)) done →
  Forall (respects (same_at p)) later →
  run_steps (done ++ step :: later) w = (Val tt, w') →
  fs w' !! p = change (fs w !! p).
Proof.
  intros Hstep Hdone Hlater Hrun.
  apply run_steps_app_done_inv in Hrun as (w1 & Hrun1 & Hrun).
  apply run_steps_done_inv in Hrun as (w2 & Es & Hrun).
  rewrite (run_steps_done_respects (same_at p) later w2 w' Hlater Hrun).
  rewrite (Hstep w1 w2 Es).
  by rewrite (run_steps_done_respects (same_at p) done w w1 Hdone Hrun1).
Qed.

(** Shows that each of the listed steps leaves a given path alone. *)
Ltac left_alone :=
  repeat apply List.Forall_cons; try apply List.Forall_nil; open_steps;
  frame_with ltac:(first [ apply same_at_say | apply same_at_enter
                         | apply same_at_perform; vm_compute; reflexivity ]).

Lemma generatePackageJson_success (config : ProjectConfig) (w w' : World) :
  generatePackageJson throws boilerplate config w = (Val true, w') →
  fs w' !! ["package.json"] = Some (File (boilerplate ["package.json"] config)).
Proof.
  unfold generatePackageJson, write_boilerplate.
  run_in throws; intros H; simplify_eq. by read_fs.
Qed.

Lemma generateConfigFiles_success (config : ProjectConfig) (w w' : World) :
  generateConfigFiles throws boilerplate config w = (Val true, w') →
  Forall (fun p => fs w' !! p = Some (File (boilerplate p config))) config_files.
Proof.
  unfold generateConfigFiles, write_boilerplate, config_files.
  run_in throws; intros H; simplify_eq;
    repeat apply List.Forall_cons; try apply List.Forall_nil; read_fs; reflexivity.
Qed.

Lemma generateREADME_success (config : ProjectConfig) (w w' : World) :
  generateREADME throws boilerplate config w = (Val true, w') →
  fs w' !! ["README.md"] = Some (File (boilerplate ["README.md"] config))
  ∧ fs w' !! ["ARCHITECTURE.md"] = Some (File (boilerplate ["ARCHITECTURE.md"] config)).
Proof.
  unfold generateREADME, write_boilerplate.
  run_in throws; intros H; simplify_eq. split; by read_fs.
Qed.

Lemma run_leaves_manifest (config : ProjectConfig) (w w' : World) :
  run_steps (all_steps config) w = (Val tt, w') →
  fs w' !! ["package.json"] = Some (File (boilerplate ["package.json"] config)).
Proof.
  intros Hrun.
  refine (written_then_kept _ _
            [createProjectStructure throws config; copyTemplateFiles throws absolute templates config]
            (generatePackageJson throws boilerplate config) _ w w' _ _ Hrun).
  - apply generatePackageJson_success.
  - left_alone.
Qed.

Lemma run_leaves_config_files (config : ProjectConfig) (w w' : World) :
  run_steps (all_steps config) w = (Val tt, w') →
  Forall (fun p => fs w' !! p = Some (File (boilerplate p config))) config_files.
Proof.
  intros Hrun.
  assert (Hkept : ∀ p,
      p ∈ config_files →
      Forall (respects (same_at p))
        [ generateDockerFiles throws config; generateCIFiles throws config;
          generateREADME throws boilerplate config;
          installDependencies throws config; initializeGit throws config ]).
  { intros p Hp. unfold config_files in Hp.
    repeat (apply elem_of_cons in Hp as [-> | Hp]; [left_alone |]).
    by apply elem_of_nil in Hp. }
  apply Forall_forall. intros p Hp.
  refine (written_then_kept p _
            [createProjectStructure throws config; copyTemplateFiles throws absolute templates config;
             generatePackageJson throws boilerplate config]
            (generateConfigFiles throws boilerplate config) _ w w' _ (Hkept p Hp) Hrun).
  intros w0 w1 E. apply generateConfigFiles_success in E.
  exact (proj1 (Forall_forall _ _) E p Hp).
Qed.

Lemma run_leaves_guide (p : list string) (config : ProjectConfig) (w w' : World) :
  p ∈ [ ["README.md"]; ["ARCHITECTURE.md"] ] →
  run_steps (all_steps config) w = (Val tt, w') →
  fs w' !! p = Some (File (boilerplate p config)).
Proof.
  intros Hp Hrun.
  assert (Hwritten : ∀ w0 w1,
            generateREADME throws boilerplate config w0 = (Val true, w1) →
            fs w1 !! p = Some (File (boilerplate p config))).
  { intros w0 w1 E. apply generateREADME_success in E as [E1 E2].
    repeat (apply elem_of_cons in Hp as [-> | Hp]; [assumption |]).
    by apply elem_of_nil in Hp. }
  refine (written_then_kept p _
            [createProjectStructure throws config; copyTemplateFiles throws absolute templates config;
             generatePackageJson throws boilerplate config;
             generateConfigFiles throws boilerplate config;
             generateDockerFiles throws config; generateCIFiles throws config]
            (generateREADME throws boilerplate config) _ w w' Hwritten _ Hrun).
  clear Hwritten.
  repeat (apply elem_of_cons in Hp as [-> | Hp]; [left_alone |]).
  by apply elem_of_nil in Hp.
Qed.

(** X15: a completed run leaves the manifest, the nine configuration files and
    the two guides, each with the content generated for it: no later step
    rewrites or removes any of them. *)
Theorem completed_run_leaves_fixed_files (config : ProjectConfig) (w w' : World) :
  run_steps (all_steps config) w = (Val tt, w') →
  Forall (fun p => fs w' !! p = Some (File (boilerplate p config))) always_files.
Proof.
  intros Hrun. unfold always_files.
  apply List.Forall_cons; [exact (run_leaves_manifest config w w' Hrun) |].
  apply Forall_app. split; [exact (run_leaves_config_files config w w' Hrun) |].
  apply Forall_forall. intros p Hp. exact (run_leaves_guide p config w w' Hp Hrun).
Qed.

Lemma generateDockerFiles_result (config : ProjectConfig) (w w' : World) :
  generateDockerFiles throws config w = (Val true, w') →
  fs w' !! [".dockerignore"]
    = (if docker (features config) then Some (File (Text dockerignore))
       else fs w !! [".dockerignore"])
  ∧ fs w' !! ["docker-compose.yml"]
    = (if dockerCompose (features config)
       then Some (File (Json (dockerCompose_object config)))
       else fs w !! ["docker-compose.yml"]).
Proof.
  unfold generateDockerFiles.
  destruct (docker (features config)), (dockerCompose (features config));
    cbn [negb andb]; run_in throws; intros H; simplify_eq; split; by read_fs.
Qed.

Lemma generateCIFiles_result (config : ProjectConfig) (w w' : World) :
  generateCIFiles throws config w = (Val true, w') →
  fs w' !! [".github"; "workflows"; "ci.yml"]
    = (if bool_decide (ci (features config) = github)
       then Some (File (Text (ciWorkflow +:+ dockerJob config)))
       else fs w !! [".github"; "workflows"; "ci.yml"]).
Proof.
  unfold generateCIFiles.
  destruct (ci (features config)); cbn [bool_decide decide_rel];
    [ change (bool_decide (github = none)) with false;
      change (bool_decide (github = github)) with true
    | change (bool_decide (gitlab = none)) with false;
      change (bool_decide (gitlab = github)) with false
    | change (bool_decide (none = none)) with true;
      change (bool_decide (none = github)) with false ];
    run_in throws; intros H; simplify_eq; by read_fs.
Qed.

(** X16: the optional files follow the features: after a completed run in a
    directory that had none of them, [.dockerignore] is there exactly with
    [docker], [docker-compose.yml] exactly with [dockerCompose], and the
    workflow file exactly when [ci] is [github]; with [gitlab] the CI step
    reports success and writes nothing. *)
Theorem optional_files_follow_features (config : ProjectConfig) (w w' : World) :
  fs w !! [".dockerignore"] = None →
  fs w !! ["docker-compose.yml"] = None →
  fs w !! [".github"; "workflows"; "ci.yml"] = None →
  run_steps (all_steps config) w = (Val tt, w') →
  fs w' !! [".dockerignore"]
    = (if docker (features config) then Some (File (Text dockerignore)) else None)
  ∧ fs w' !! ["docker-compose.yml"]
    = (if dockerCompose (features config)
       then Some (File (Json (dockerCompose_object config))) else None)
  ∧ fs w' !! [".github"; "workflows"; "ci.yml"]
    = (if bool_decide (ci (features config) = github)
       then Some (File (Text (ciWorkflow +:+ dockerJob config))) else None).
Proof.
  intros Hignore Hcompose Hci Hrun. split; [| split].
  - rewrite <- Hignore.
    refine (written_or_kept _
              (fun o => if docker (features config)
                        then Some (File (Text dockerignore)) else o)
              [createProjectStructure throws config; copyTemplateFiles throws absolute templates config;
               generatePackageJson throws boilerplate config;
               generateConfigFiles throws boilerplate config]
              (generateDockerFiles throws config) _ w w' _ _ _ Hrun);
      [| left_alone | left_alone].
    intros w0 w1 E. by apply generateDockerFiles_result in E as [? _].
  - rewrite <- Hcompose.
    refine (written_or_kept _
              (fun o => if dockerCompose (features config)
                        then Some (File (Json (dockerCompose_object config))) else o)
              [createProjectStructure throws config; copyTemplateFiles throws absolute templates config;
               generatePackageJson throws boilerplate config;
               generateConfigFiles throws boilerplate config]
              (generateDockerFiles throws config) _ w w' _ _ _ Hrun);
      [| left_alone | left_alone].
    intros w0 w1 E. by apply generateDockerFiles_result in E as [_ ?].
  - rewrite <- Hci.
    refine (written_or_kept _
              (fun o => if bool_decide (ci (features config) = github)
                        then Some (File (Text (ciWorkflow +:+ dockerJob config))) else o)
              [createProjectStructure throws config; copyTemplateFiles throws absolute templates config;
               generatePackageJson throws boilerplate config;
               generateConfigFiles throws boilerplate config;
               generateDockerFiles throws config]
              (generateCIFiles throws config) _ w w' _ _ _ Hrun);
      [| left_alone | left_alone].
    intros w0 w1 E. by apply generateCIFiles_result in E.
Qed.

(** ** The install step in a run *)

Lemma installDependencies_success (config : ProjectConfig) (w w' : World) :
  install config = true →
  installDependencies throws config w = (Val true, w') →
  trace w' = trace w ++ [Run (install_command (packageManager config))].
Proof.
  intros Hinst. unfold installDependencies. rewrite Hinst. cbn [negb].
  run_in throws; intros H; by simplify_eq.
Qed.

(** X17: a resolved configuration always has [install] on, so every completed
    run has run the install command of the chosen package manager: the
    interactive path has no way to skip it. *)
Theorem install_always_attempted (projectName : option string)
    (answers : Answers) (w w' : World) :
  run_steps (all_steps (resolve projectName answers)) w = (Val tt, w') →
  ∃ before after,
    trace w' = trace w ++ before
               ++ Run (install_command (a_packageManager answers)) :: after.
Proof.
  intros Hrun. pose proof (steps_trace_grows throws absolute templates boilerplate
                             (resolve projectName answers)) as Hgrow.
  change (all_steps (resolve projectName answers))
    with (take 7 (all_steps (resolve projectName answers))
          ++ [installDependencies throws (resolve projectName answers);
              initializeGit throws (resolve projectName answers)]) in Hrun.
  apply run_steps_app_done_inv in Hrun as (w7 & Hrun7 & Hrun).
  apply run_steps_done_inv in Hrun as (w8 & E8 & Hrun).
  apply installDependencies_success in E8; [| reflexivity].
  apply (run_steps_done_respects trace_grows _ _ _ (Forall_take _ 7 _ Hgrow))
    in Hrun7 as [before Hbefore].
  assert (Hlast : Forall (respects trace_grows)
                    [initializeGit throws (resolve projectName answers)]).
  { apply List.Forall_cons; [| apply List.Forall_nil].
    exact (proj1 (Forall_lookup _ _) Hgrow 8 _ eq_refl). }
  apply (run_steps_done_respects trace_grows _ _ _ Hlast) in Hrun as [after Hafter].
  exists before, after. rewrite Hafter, E8, Hbefore. cbn [packageManager resolve].
  by rewrite <- !app_assoc.
Qed.

(** ** [main] *)

Lemma printNextSteps_result (config : ProjectConfig) (w : World) :
  ∃ lines, printNextSteps config w
           = (Val tt, mkWorld (fs w) (trace w) (console w ++ lines) (calls w)).
Proof.
  unfold printNextSteps.
  destruct (negb (install config)), (docker (features config));
    run_in throws; eexists; rewrite <- !app_assoc; reflexivity.
Qed.

Lemma resolved_name_present (projectName : option string) (user : User)
    (answers : Answers) :
  prompts projectName user = Some answers →
  ∃ nm, name (resolve projectName answers) = Some nm.
Proof.
  unfold prompts, ask_name, resolve, js_or. cbn [name]. intros Hp.
  destruct (truthy_string projectName) eqn:Ht.
  - destruct projectName as [nm |]; [by exists nm | discriminate].
  - cbn [negb] in Hp.
    destruct (find _ (submitted <$> typed_names user)) as [v |]; [| discriminate].
    destruct (gives_up user); [discriminate |].
    injection Hp as <-. by exists v.
Qed.

Lemma main_on_existing_directory (argv : list string) (user : User)
    (w : World) :
  is_Some (fs w !! []) →
  ∃ lines,
    main throws absolute templates boilerplate argv user w
    = (Exit 1, mkWorld (fs w) (trace w) (console w ++ lines) (calls w))
    ∨ (main throws absolute templates boilerplate argv user w
       = (Exit 0, mkWorld (fs w) (trace w) (console w ++ lines) (calls w))
       ∧ truthy_string (head argv) = false
       ∧ prompts (head argv) user = None).
Proof.
  intros Hroot. unfold main, printBanner, refuse_existing, promptForConfig.
  destruct (truthy_string (head argv)) eqn:Ht.
  - run_in throws. rewrite (bool_decide_eq_true_2 _ Hroot). run_in throws.
    eexists. left. rewrite <- ?app_assoc. reflexivity.
  - destruct (prompts (head argv) user) as [answers |] eqn:Hp.
    + destruct (resolved_name_present _ _ _ Hp) as (nm & Hnm).
      run_in throws. rewrite Hnm. run_in throws.
      rewrite (bool_decide_eq_true_2 _ Hroot). run_in throws.
      eexists. left. rewrite <- ?app_assoc. reflexivity.
    + run_in throws. eexists. right. rewrite <- ?app_assoc.
      split; [reflexivity |]. by split.
Qed.

(** X18: [main] never touches a directory that is already there: it leaves
    with exit code 1 (or with 0 when the user cancels the prompt first),
    having entered no step and made no I/O call. *)
Theorem main_refuses_existing_directory (argv : list string) (user : User)
    (w : World) :
  is_Some (fs w !! []) →
  ((main throws absolute templates boilerplate argv user w).1 = Exit 1
   ∨ ((main throws absolute templates boilerplate argv user w).1 = Exit 0
      ∧ truthy_string (head argv) = false
      ∧ prompts (head argv) user = None))
  ∧ fs (main throws absolute templates boilerplate argv user w).2 = fs w
  ∧ trace (main throws absolute templates boilerplate argv user w).2 = trace w
  ∧ calls (main throws absolute templates boilerplate argv user w).2 = calls w.
Proof.
  intros Hroot.
  destruct (main_on_existing_directory argv user w Hroot)
    as (lines & [E | (E & Ht & Hp)]); rewrite E; cbn [fst snd fs trace calls].
  - split; [by left | by repeat split].
  - split; [by right | by repeat split].
Qed.


(** X20: on a free directory, with the prompt answered and no I/O call raising
    (a [chmod] apart), [main] ends normally: it has entered the nine steps
    in order and the project holds every file of the fixed set, with the
    content generated for the resolved configuration. *)
Theorem main_generates_project (argv : list string) (user : User)
    (answers : Answers) (w : World) :
  fs w !! [] = None →
  prompts (head argv) user = Some answers →
  (∀ tr e, throws tr e = true → is_chmod e = true) →
  (main throws absolute templates boilerplate argv user w).1 = Val tt
  ∧ calls (main throws absolute templates boilerplate argv user w).2 = calls w ++ step_names
  ∧ Forall (fun p => fs (main throws absolute templates boilerplate argv user w).2 !! p
                     = Some (File (boilerplate p (resolve (head argv) answers))))
           always_files.
Proof.
  intros Hroot Hp Honly.
  assert (Hfree : bool_decide (is_Some (fs w !! [])) = false).
  { apply bool_decide_eq_false_2. rewrite Hroot. by intros [? ?]. }
  destruct (resolved_name_present _ _ _ Hp) as (nm & Hnm).
  unfold main, printBanner, refuse_existing, promptForConfig. rewrite Hp.
  destruct (truthy_string (head argv)); run_in throws; rewrite ?Hfree;
    run_in throws; rewrite Hnm; run_in throws; rewrite ?Hfree; run_in throws.
  all: match goal with
       | |- context [run_steps ?todo ?w0] =>
           destruct (run_steps_all_succeed todo w0
                       (steps_succeed_unless_raised _ Honly)) as (w3 & Hrun);
           pose proof (run_steps_done_calls step_names todo w0 w3
                         (steps_enter throws absolute templates boilerplate _) Hrun) as Hcalls;
           pose proof (run_leaves_manifest _ _ _ Hrun) as Hmanifest;
           pose proof (run_leaves_config_files _ _ _ Hrun) as Hconfig;
           pose proof (fun p Hp => run_leaves_guide p _ _ _ Hp Hrun) as Hguides;
           rewrite Hrun
       end.
  all: destruct (printNextSteps_result (resolve (head argv) answers) w3)
         as (lines & Enext).
  all: run_in throws; rewrite Enext; run_in throws; cbn [fst snd fs trace calls].
  all: split; [reflexivity |]; split; [exact Hcalls |].
  all: apply List.Forall_cons; [exact Hmanifest |].
  all: apply Forall_app; split; [exact Hconfig | by apply Forall_forall].
Qed.

End RunProperties.

(** * Instances of the further properties *)

Lemma createProjectStructure_makes_skeleton_witness :
  let throws := mkdir_refused_over (fs notes_world) in
  let w' := (createProjectStructure throws api_config notes_world).2 in
  (∀ tr p, file_in_the_way (fs notes_world) p = true → throws tr (Mkdir p) = true)
  ∧ createProjectStructure throws api_config notes_world = (Val true, w')
  ∧ Forall (fun p => fs w' !! p = Some Dir) skeleton_dirs
  ∧ (∀ p x, fs notes_world !! p = Some x → fs w' !! p = Some x)
  ∧ (∀ p, p ∉ skeleton_dirs → fs w' !! p = fs notes_world !! p).
Proof.
  intros throws w'.
  assert (H1 : ∀ tr p, file_in_the_way (fs notes_world) p = true →
                       throws tr (Mkdir p) = true)
    by (intros tr p H; exact H).
  assert (H2 : createProjectStructure throws api_config notes_world = (Val true, w')).
  { apply (with_final_world (createProjectStructure throws api_config notes_world)
             (Val true)).
    vm_compute. reflexivity. }
  split; [exact H1 |]. split; [exact H2 |].
  exact (createProjectStructure_makes_skeleton throws api_config notes_world w' H1 H2).
Defined.

Lemma generateConfigFiles_ignores_chmod_failure_witness :
  (∀ tr e, chmod_fails tr e = true → is_chmod e = true)
  ∧ ∃ w', generateConfigFiles chmod_fails blank api_config empty_world = (Val true, w')
          ∧ Forall (fun p => fs w' !! p = Some (File (blank p api_config))) config_files
          ∧ is_Some (fs w' !! [".husky"])
          ∧ Forall (fun e => is_chmod e = false
                             ∨ e ∈ [ChmodX [".husky"; "pre-commit"];
                                    ChmodX [".husky"; "commit-msg"]])
                   (drop (length (trace empty_world)) (trace w')).
Proof.
  assert (H : ∀ tr e, chmod_fails tr e = true → is_chmod e = true)
    by (intros tr e E; exact E).
  split; [exact H |].
  exact (generateConfigFiles_ignores_chmod_failure chmod_fails blank api_config
           empty_world H).
Defined.

Lemma initializeGit_runs_commands_in_order_witness :
  git api_config = true
  ∧ ∃ n, trace (initializeGit git_add_fails api_config empty_world).2
         = trace empty_world ++ take n (git_commands api_config)
         ∧ (((initializeGit git_add_fails api_config empty_world).1 = Val true
             ∧ n = length (git_commands api_config))
            ∨ ((initializeGit git_add_fails api_config empty_world).1 = Val false
               ∧ n < length (git_commands api_config)
               ∧ (∀ e, git_commands api_config !! n = Some e →
                       git_add_fails (trace empty_world ++ take n (git_commands api_config)) e
                       = true))).
Proof.
  split; [reflexivity |].
  exact (initializeGit_runs_commands_in_order git_add_fails api_config empty_world
           eq_refl).
Defined.

Lemma copyTemplateFiles_without_template_witness :
  (∀ dir, bare_templates (template api_config) = Some dir →
          dir "src" = None ∧ dir "tests" = None)
  ∧ copyTemplateFiles no_throw sample_absolute bare_templates api_config empty_world
    = (Val true,
       mkWorld (fs empty_world) (trace empty_world)
         (console empty_world ++ [ SpinnerStart "Copying template files...";
                                   SpinnerSucceed "Copied template files" ])
         (calls empty_world ++ [CopyTemplateFiles])).
Proof.
  assert (H : ∀ dir, bare_templates (template api_config) = Some dir →
                     dir "src" = None ∧ dir "tests" = None).
  { intros dir E. injection E as <-. split; reflexivity. }
  split; [exact H |].
  exact (copyTemplateFiles_without_template no_throw sample_absolute bare_templates api_config
           empty_world H).
Defined.


Lemma pipeline_completes_unless_io_raises_witness :
  (∀ tr e, chmod_fails tr e = true → is_chmod e = true)
  ∧ ∃ w', run_steps (steps chmod_fails sample_absolute sample_templates blank api_config) empty_world
          = (Val tt, w')
          ∧ calls w' = calls empty_world ++ step_names.
Proof.
  assert (H : ∀ tr e, chmod_fails tr e = true → is_chmod e = true)
    by (intros tr e E; exact E).
  split; [exact H |].
  exact (pipeline_completes_unless_io_raises chmod_fails sample_absolute sample_templates blank
           api_config empty_world H).
Defined.

Lemma completed_run_leaves_fixed_files_witness :
  let todo := steps no_throw sample_absolute sample_templates generated api_config in
  let w' := (run_steps todo empty_world).2 in
  run_steps todo empty_world = (Val tt, w')
  ∧ Forall (fun p => fs w' !! p = Some (File (generated p api_config))) always_files.
Proof.
  intros todo w'.
  assert (H : run_steps todo empty_world = (Val tt, w')).
  { apply (with_final_world (run_steps todo empty_world) (Val tt)).
    vm_compute. reflexivity. }
  split; [exact H |].
  exact (completed_run_leaves_fixed_files no_throw sample_absolute sample_templates generated
           api_config empty_world w' H).
Defined.

Lemma optional_files_follow_features_witness :
  let config := resolve (Some "svc") minimal_answers in
  let todo := steps no_throw sample_absolute sample_templates blank config in
  let w' := (run_steps todo empty_world).2 in
  fs empty_world !! [".dockerignore"] = None
  ∧ fs empty_world !! ["docker-compose.yml"] = None
  ∧ fs empty_world !! [".github"; "workflows"; "ci.yml"] = None
  ∧ run_steps todo empty_world = (Val tt, w')
  ∧ fs w' !! [".dockerignore"]
    = (if docker (features config) then Some (File (Text dockerignore)) else None)
  ∧ fs w' !! ["docker-compose.yml"]
    = (if dockerCompose (features config)
       then Some (File (Json (dockerCompose_object config))) else None)
  ∧ fs w' !! [".github"; "workflows"; "ci.yml"]
    = (if bool_decide (ci (features config) = github)
       then Some (File (Text (ciWorkflow +:+ dockerJob config))) else None).
Proof.
  intros config todo w'.
  assert (H1 : fs empty_world !! [".dockerignore"] = None) by reflexivity.
  assert (H2 : fs empty_world !! ["docker-compose.yml"] = None) by reflexivity.
  assert (H3 : fs empty_world !! [".github"; "workflows"; "ci.yml"] = None)
    by reflexivity.
  assert (H4 : run_steps todo empty_world = (Val tt, w')).
  { apply (with_final_world (run_steps todo empty_world) (Val tt)).
    vm_compute. reflexivity. }
  split; [exact H1 |]. split; [exact H2 |]. split; [exact H3 |].
  split; [exact H4 |].
  exact (optional_files_follow_features no_throw sample_absolute sample_templates blank config
           empty_world w' H1 H2 H3 H4).
Defined.

Lemma install_always_attempted_witness :
  let todo := steps no_throw sample_absolute sample_templates blank
                (resolve (Some "svc") minimal_answers) in
  let w' := (run_steps todo empty_world).2 in
  run_steps todo empty_world = (Val tt, w')
  ∧ ∃ before after,
      trace w' = trace empty_world ++ before
                 ++ Run (install_command (a_packageManager minimal_answers)) :: after.
Proof.
  intros todo w'.
  assert (H : run_steps todo empty_world = (Val tt, w')).
  { apply (with_final_world (run_steps todo empty_world) (Val tt)).
    vm_compute. reflexivity. }
  split; [exact H |].
  exact (install_always_attempted no_throw sample_absolute sample_templates blank (Some "svc")
           minimal_answers empty_world w' H).
Defined.

Lemma main_refuses_existing_directory_witness :
  let r := main no_throw sample_absolute sample_templates blank ["my-api"] api_user occupied_world in
  is_Some (fs occupied_world !! [])
  ∧ (r.1 = Exit 1
     ∨ (r.1 = Exit 0
        ∧ truthy_string (head ["my-api"]) = false
        ∧ prompts (head ["my-api"]) api_user = None))
  ∧ fs r.2 = fs occupied_world
  ∧ trace r.2 = trace occupied_world
  ∧ calls r.2 = calls occupied_world.
Proof.
  intros r.
  assert (H : is_Some (fs occupied_world !! [])) by (exists Dir; reflexivity).
  split; [exact H |].
  exact (main_refuses_existing_directory no_throw sample_absolute sample_templates blank ["my-api"]
           api_user occupied_world H).
Defined.

Lemma main_generates_project_witness :
  let r := main chmod_fails sample_absolute sample_templates generated ["my-api"] api_user empty_world in
  fs empty_world !! [] = None
  ∧ prompts (head ["my-api"]) api_user = Some api_answers
  ∧ (∀ tr e, chmod_fails tr e = true → is_chmod e = true)
  ∧ r.1 = Val tt
  ∧ calls r.2 = calls empty_world ++ step_names
  ∧ Forall (fun p => fs r.2 !! p
                     = Some (File (generated p (resolve (head ["my-api"]) api_answers))))
           always_files.
Proof.
  intros r.
  assert (H1 : fs empty_world !! [] = None) by reflexivity.
  assert (H2 : prompts (head ["my-api"]) api_user = Some api_answers) by reflexivity.
  assert (H3 : ∀ tr e, chmod_fails tr e = true → is_chmod e = true)
    by (intros tr e E; exact E).
  split; [exact H1 |]. split; [exact H2 |]. split; [exact H3 |].
  exact (main_generates_project chmod_fails sample_absolute sample_templates generated ["my-api"]
           api_user api_answers empty_world H1 H2 H3).
Defined.

